(** * The map-view calculation of the coverage dashboard

    The dashboard fetches [/coverage_areas.geojson], keeps the features
    that carry a [last_edited] property and frames them on the map with
    [calculateBounds].  The repository holds two versions of that
    function: the react-leaflet version of the dashboard and the later
    react-map-gl/mapbox version, which added the coordinate validity
    check and the default view.

    JavaScript numbers are IEEE 754 binary64 values, so they are
    embedded as Rocq's primitive [float]; the values that
    [response.json()] can produce are embedded as the type [value]. *)

From Stdlib Require Import List String ZArith Bool Lia Permutation.
From Stdlib Require Import Floats.
Import ListNotations.

Local Open Scope string_scope.
Local Open Scope list_scope.
Set Warnings "-register-all,-inexact-float".

(** ** JavaScript values and the few runtime operations the code uses *)

Module JS.

(** The values of a parsed JSON document, plus [undefined], which a
    missing property or a missing array element reads as.  A string is
    taken as the sequence of its code points, an object as its own
    properties in order, the first binding of a key being the live one. *)
Inductive value : Type :=
| VUndefined
| VNull
| VBool (b : bool)
| VNum (x : float)
| VStr (s : string)
| VArr (xs : list value)
| VObj (props : list (string * value)).

(** A completion: the statement ran to its end, or a [TypeError]
    was thrown. *)
Inductive completion (A : Type) : Type :=
| Normal (a : A)
| Throw.
Arguments Normal {A} a.
Arguments Throw {A}.

Definition bind {A B : Type} (c : completion A) (k : A -> completion B)
  : completion B :=
  match c with
  | Normal a => k a
  | Throw => Throw
  end.

Notation "x <- c ;; k" := (bind c (fun x => k))
  (at level 61, c at next level, right associativity).

(** [ToBoolean]. *)
Definition truthy (v : value) : bool :=
  match v with
  | VUndefined | VNull => false
  | VBool b => b
  | VNum x => negb (is_nan x || is_zero x)
  | VStr s => negb (String.eqb s "")
  | VArr _ | VObj _ => true
  end.

Fixpoint lookup (k : string) (props : list (string * value)) : value :=
  match props with
  | [] => VUndefined
  | (k', v) :: rest => if String.eqb k k' then v else lookup k rest
  end.

(** [v.k] for a key [k] that no prototype defines ([geometry],
    [coordinates], [properties], [last_edited], [features]): reading it
    off [undefined] or [null] throws, off an object gives the own
    property, off anything else gives [undefined]. *)
Definition get (v : value) (k : string) : completion value :=
  match v with
  | VUndefined | VNull => Throw
  | VObj props => Normal (lookup k props)
  | _ => Normal VUndefined
  end.

(** [v === 0]. *)
Definition strictEqZero (v : value) : bool :=
  match v with
  | VNum x => (x =? 0)%float
  | _ => false
  end.

(** [v.length === 0] for a [v] other than [undefined] and [null]: the
    length of an array or of a string counts its elements and is [0]
    only when there are none; an object may own a [length] property. *)
Definition lengthIsZero (v : value) : bool :=
  match v with
  | VArr [] => true
  | VStr EmptyString => true
  | VObj props => strictEqZero (lookup "length" props)
  | _ => false
  end.

(** [xs.forEach(body)] where [body] updates the variables [S] it closes
    over: only an array has a callable [forEach]; an exception thrown by
    the callback ends the loop and propagates. *)
Section ForEach.
Context {S : Type}.
Variable body : value -> S -> completion S.

Fixpoint forEachList (xs : list value) (s : S) : completion S :=
  match xs with
  | [] => Normal s
  | x :: rest => s' <- body x s ;; forEachList rest s'
  end.

Definition forEach (v : value) (s : S) : completion S :=
  match v with
  | VArr xs => forEachList xs s
  | _ => Throw
  end.
End ForEach.

(** [xs.filter(keep)]: only an array has a callable [filter]; the
    callback's result goes through [ToBoolean]. *)
Section Filter.
Variable keep : value -> completion value.

Fixpoint filterList (xs : list value) : completion (list value) :=
  match xs with
  | [] => Normal []
  | x :: rest =>
      k <- keep x ;;
      kept <- filterList rest ;;
      Normal (if truthy k then x :: kept else kept)
  end.

Definition filter (v : value) : completion value :=
  match v with
  | VArr xs => kept <- filterList xs ;; Normal (VArr kept)
  | _ => Throw
  end.
End Filter.

(** [{ ...obj, k: v }] on the own properties of an object. *)
Fixpoint assign (k : string) (v : value) (props : list (string * value))
  : list (string * value) :=
  match props with
  | [] => [(k, v)]
  | (k', v') :: rest =>
      if String.eqb k k' then (k', v) :: rest else (k', v') :: assign k v rest
  end.

(** The first two items of the string iterator. *)
Definition strItem (n : nat) (s : string) : value :=
  match String.get n s with
  | Some c => VStr (String c EmptyString)
  | None => VUndefined
  end.

(** [const [a, b] = v]: the first two items the iterator of [v] yields,
    [undefined] where it yields fewer; a value that is not iterable
    throws. *)
Definition destructure2 (v : value) : completion (value * value) :=
  match v with
  | VArr xs => Normal (nth 0 xs VUndefined, nth 1 xs VUndefined)
  | VStr s => Normal (strItem 0 s, strItem 1 s)
  | _ => Throw
  end.

(** [+0] and [-0], which [===] and [<] do not tell apart. *)
Definition is_pos_zero (x : float) : bool := is_zero x && negb (get_sign x).
Definition is_neg_zero (x : float) : bool := is_zero x && get_sign x.

(** [Math.min(x, y)] on numbers: [NaN] if either is; [-0] counts as
    smaller than [+0]; otherwise [y] replaces [x] when [y < x]. *)
Definition Math_min (x y : float) : float :=
  if is_nan x || is_nan y then nan
  else if is_neg_zero y && is_pos_zero x then y
  else if (y <? x)%float then y
  else x.

(** [Math.max(x, y)] on numbers: [NaN] if either is; [+0] counts as
    larger than [-0]; otherwise [y] replaces [x] when [y > x]. *)
Definition Math_max (x y : float) : float :=
  if is_nan x || is_nan y then nan
  else if is_pos_zero y && is_neg_zero x then y
  else if (x <? y)%float then y
  else x.

End JS.

Import JS.

(** ** The react-map-gl version of the dashboard *)

Module Mapbox.

(** The object [{ longitude, latitude, zoom }] that [calculateBounds]
    returns and the [mapView] state holds.  The zoom levels are the
    integer literals of the source. *)
Record ViewBounds : Type := mkView {
  longitude : float;
  latitude : float;
  zoom : Z
}.

(** The variables the [forEach] callbacks assign to. *)
Record Acc : Type := mkAcc {
  minLat : float;
  maxLat : float;
  minLng : float;
  maxLng : float;
  hasValidCoords : bool
}.

Definition initAcc : Acc :=
  mkAcc infinity neg_infinity infinity neg_infinity false.

(** The condition guarding the four assignments. *)
Definition validCoord (lng lat : value) : bool :=
  match lng, lat with
  | VNum x, VNum y =>
      negb (is_nan x) && negb (is_nan y)
      && (-180 <=? x)%float && (x <=? 180)%float
      && (-90 <=? y)%float && (y <=? 90)%float
  | _, _ => false
  end.

Definition extend (a : Acc) (x y : float) : Acc :=
  mkAcc (Math_min (minLat a) y) (Math_max (maxLat a) y)
        (Math_min (minLng a) x) (Math_max (maxLng a) x)
        true.

(** The body of [ring.forEach(coord => ...)]. *)
Definition visitCoord (coord : value) (a : Acc) : completion Acc :=
  p <- destructure2 coord ;;
  match p with
  | (VNum x, VNum y) =>
      if validCoord (VNum x) (VNum y) then Normal (extend a x y) else Normal a
  | _ => Normal a
  end.

(** The body of [feature.geometry.coordinates.forEach(ring => ...)]. *)
Definition visitRing (ring : value) (a : Acc) : completion Acc :=
  forEach visitCoord ring a.

(** The body of [features.forEach(feature => ...)]. *)
Definition visitFeature (feature : value) (a : Acc) : completion Acc :=
  geometry <- get feature "geometry" ;;
  if truthy geometry then
    coordinates <- get geometry "coordinates" ;;
    if truthy coordinates then forEach visitRing coordinates a
    else Normal a
  else Normal a.

(** The ladder of [if (maxDiff > ...) zoom = ...]. *)
Definition zoomFor (maxDiff : float) : Z :=
  if (3 <? maxDiff)%float then 7
  else if (2 <? maxDiff)%float then 8
  else if (1 <? maxDiff)%float then 9
  else if (0.5 <? maxDiff)%float then 10
  else if (0.2 <? maxDiff)%float then 11
  else if (0.1 <? maxDiff)%float then 12
  else if (0.05 <? maxDiff)%float then 13
  else 14.

Definition defaultView : ViewBounds :=
  mkView (-96.7970)%float 32.9750%float 9.

(** The condition of the [if] that returns the default values. *)
Definition noBounds (a : Acc) : bool :=
  negb (hasValidCoords a)
  || (minLat a =? infinity)%float || (maxLat a =? neg_infinity)%float
  || (minLng a =? infinity)%float || (maxLng a =? neg_infinity)%float.

(** What follows the loops. *)
Definition viewOf (a : Acc) : ViewBounds :=
  if noBounds a then defaultView
  else
    let centerLat := ((minLat a + maxLat a) / 2)%float in
    let centerLng := ((minLng a + maxLng a) / 2)%float in
    let latDiff := (maxLat a - minLat a)%float in
    let lngDiff := (maxLng a - minLng a)%float in
    let maxDiff := Math_max latDiff lngDiff in
    mkView centerLng centerLat (zoomFor maxDiff).

(** [calculateBounds(features)]; [None] is the [null] it returns. *)
Definition calculateBounds (features : value)
  : completion (option ViewBounds) :=
  if negb (truthy features) || lengthIsZero features
  then Normal None
  else
    a <- forEach visitFeature features initAcc ;;
    Normal (Some (viewOf a)).

(** [useState({ longitude: -96.7970, latitude: 32.9750, zoom: 9 })] *)
Definition initialMapView : ViewBounds :=
  mkView (-96.7970)%float 32.9750%float 9.

End Mapbox.

(** ** The react-leaflet version of the dashboard *)

Module Leaflet.

(** The object [{ center: [centerLat, centerLng], zoom }]. *)
Record ViewBounds : Type := mkView {
  center : float * float;
  zoom : Z
}.

Record Acc : Type := mkAcc {
  minLat : float;
  maxLat : float;
  minLng : float;
  maxLng : float
}.

Definition initAcc : Acc :=
  mkAcc infinity neg_infinity infinity neg_infinity.

Definition extend (a : Acc) (x y : float) : Acc :=
  mkAcc (Math_min (minLat a) y) (Math_max (maxLat a) y)
        (Math_min (minLng a) x) (Math_max (maxLng a) x).

Definition zoomFor (maxDiff : float) : Z :=
  if (3 <? maxDiff)%float then 7
  else if (2 <? maxDiff)%float then 8
  else if (1 <? maxDiff)%float then 9
  else if (0.5 <? maxDiff)%float then 10
  else if (0.2 <? maxDiff)%float then 11
  else if (0.1 <? maxDiff)%float then 12
  else if (0.05 <? maxDiff)%float then 13
  else 14.

Definition viewOf (a : Acc) : ViewBounds :=
  let centerLat := ((minLat a + maxLat a) / 2)%float in
  let centerLng := ((minLng a + maxLng a) / 2)%float in
  let latDiff := (maxLat a - minLat a)%float in
  let lngDiff := (maxLng a - minLng a)%float in
  let maxDiff := Math_max latDiff lngDiff in
  mkView (centerLat, centerLng) (zoomFor maxDiff).

(** This version hands [lat] and [lng] to [Math.min] and [Math.max]
    unchecked, which convert them with [ToNumber].  The conversion of a
    string (a numeric-literal parser) and of an array or object (through
    [ToPrimitive], which can throw) stay abstract: no numeric coordinate
    reaches them. *)
Section WithToNumber.
Variable StringToNumber : string -> float.
Variable ObjectToNumber : value -> completion float.

Definition ToNumber (v : value) : completion float :=
  match v with
  | VUndefined => Normal nan
  | VNull => Normal 0%float
  | VBool b => Normal (if b then 1%float else 0%float)
  | VNum x => Normal x
  | VStr s => Normal (StringToNumber s)
  | VArr _ | VObj _ => ObjectToNumber v
  end.

Definition visitCoord (coord : value) (a : Acc) : completion Acc :=
  p <- destructure2 coord ;;
  y <- ToNumber (snd p) ;;
  x <- ToNumber (fst p) ;;
  Normal (extend a x y).

Definition visitRing (ring : value) (a : Acc) : completion Acc :=
  forEach visitCoord ring a.

Definition visitFeature (feature : value) (a : Acc) : completion Acc :=
  geometry <- get feature "geometry" ;;
  if truthy geometry then
    coordinates <- get geometry "coordinates" ;;
    if truthy coordinates then forEach visitRing coordinates a
    else Normal a
  else Normal a.

Definition calculateBounds (features : value)
  : completion (option ViewBounds) :=
  if negb (truthy features) || lengthIsZero features
  then Normal None
  else
    a <- forEach visitFeature features initAcc ;;
    Normal (Some (viewOf a)).
End WithToNumber.

(** [useState({ center: [32.9750, -96.7970], zoom: 9 })] *)
Definition initialMapView : ViewBounds :=
  mkView (32.9750, -96.7970)%float 9.

End Leaflet.

(** ** [calculateBounds] statement by statement

    The react-map-gl [calculateBounds] once more, now with its
    variables held in a store and found by name, and run inside a world
    that holds what a function of this module can reach besides its
    argument: the bindings of the enclosing scopes and the console.
    Whether a statement touches the world is decided by looking the
    name up, as the language does. *)

Module Imperative.

Definition env : Type := list (string * value).

(** What outlives a call: the variables of the enclosing scopes
    (module level and global) and the lines written to the console. *)
Record World : Type := mkWorld {
  outer : env;
  console : list (list value)
}.

(** A statement ends normally, by [return], or by a thrown error. *)
Inductive outcome (A : Type) : Type :=
| Done (a : A)
| Returned (v : value)
| Thrown.
Arguments Done {A} a.
Arguments Returned {A} v.
Arguments Thrown {A}.

(** A computation runs on the variables of the running call, innermost
    declaration first, and on the world. *)
Definition M (A : Type) : Type := env -> World -> outcome A * env * World.

Definition ret {A : Type} (a : A) : M A := fun s w => (Done a, s, w).

Definition throw {A : Type} : M A := fun s w => (Thrown, s, w).

Definition returning {A : Type} (v : value) : M A :=
  fun s w => (Returned v, s, w).

Definition andThen {A B : Type} (m : M A) (k : A -> M B) : M B :=
  fun s w =>
    match m s w with
    | (Done a, s', w') => k a s' w'
    | (Returned v, s', w') => (Returned v, s', w')
    | (Thrown, s', w') => (Thrown, s', w')
    end.

Notation "'let*' x ':=' m 'in' k" := (andThen m (fun x => k))
  (at level 10, x name, m at level 100, k at level 200).
Notation "m ;;; k" := (andThen m (fun _ => k))
  (at level 62, right associativity).

Definition lift {A : Type} (c : completion A) : M A :=
  match c with
  | Normal a => ret a
  | Throw => throw
  end.

Fixpoint find (x : string) (s : env) : option value :=
  match s with
  | [] => None
  | (y, v) :: rest => if String.eqb x y then Some v else find x rest
  end.

Fixpoint replace (x : string) (v : value) (s : env) : option env :=
  match s with
  | [] => None
  | (y, u) :: rest =>
      if String.eqb x y then Some ((y, v) :: rest)
      else match replace x v rest with
           | Some rest' => Some ((y, u) :: rest')
           | None => None
           end
  end.

(** An identifier in an expression: the innermost declaration of the
    call, else a binding of the enclosing scopes, else a
    [ReferenceError]. *)
Definition read (x : string) : M value :=
  fun s w =>
    match find x s with
    | Some v => (Done v, s, w)
    | None =>
        match find x (outer w) with
        | Some v => (Done v, s, w)
        | None => (Thrown, s, w)
        end
    end.

(** [x = v]: the same resolution; a module is strict code, so a name
    declared nowhere is a [ReferenceError]. *)
Definition assign (x : string) (v : value) : M unit :=
  fun s w =>
    match replace x v s with
    | Some s' => (Done tt, s', w)
    | None =>
        match replace x v (outer w) with
        | Some o' => (Done tt, s, mkWorld o' (console w))
        | None => (Thrown, s, w)
        end
    end.

(** [let x = v] and [const x = v]. *)
Definition declare (x : string) (v : value) : M unit :=
  fun s w => (Done tt, (x, v) :: s, w).

(** [console.log(...vs)]. *)
Definition log (vs : list value) : M unit :=
  fun s w => (Done tt, s, mkWorld (outer w) (console w ++ [vs])).

(** A block or a function body: the declarations made inside end with
    it, the assignments to variables declared outside stay. *)
Definition block {A : Type} (m : M A) : M A :=
  fun s w =>
    match m s w with
    | (r, s', w') => (r, skipn (List.length s' - List.length s) s', w')
    end.

(** The callback of a [forEach] is called on each element in turn; what
    it returns is dropped, what it throws ends the loop. *)
Fixpoint each (callback : value -> M unit) (xs : list value) : M unit :=
  match xs with
  | [] => ret tt
  | x :: rest =>
      fun s w =>
        match callback x s w with
        | (Thrown, s', w') => (Thrown, s', w')
        | (_, s', w') => each callback rest s' w'
        end
  end.

(** [param => { body }]: a call binds the parameter in a scope of its
    own, inside the scope the arrow function was written in. *)
Definition callback (param : string) (body : M unit) : value -> M unit :=
  fun x => block (declare param x ;;; body).

(** [m.forEach(param => { body })]; only an array has a [forEach]. *)
Definition forEach (m : M value) (param : string) (body : M unit)
  : M unit :=
  let* v := m in
  match v with
  | VArr xs => each (callback param body) xs
  | _ => throw
  end.

(** [m.k] *)
Definition dot (m : M value) (k : string) : M value :=
  let* v := m in lift (get v k).

(** [m.length === 0] *)
Definition lengthIs0 (m : M value) : M value :=
  let* v := m in
  match v with
  | VUndefined | VNull => throw
  | _ => ret (VBool (lengthIsZero v))
  end.

Definition num (x : float) : M value := ret (VNum x).

Definition typeof (v : value) : string :=
  match v with
  | VUndefined => "undefined"
  | VBool _ => "boolean"
  | VNum _ => "number"
  | VStr _ => "string"
  | VNull | VArr _ | VObj _ => "object"
  end.

(** [typeof m === t] *)
Definition typeofIs (m : M value) (t : string) : M value :=
  let* v := m in ret (VBool (String.eqb (typeof v) t)).

(** [!m], [a && b], [a || b] *)
Definition notOf (m : M value) : M value :=
  let* v := m in ret (VBool (negb (truthy v))).

Definition andAlso (a b : M value) : M value :=
  let* v := a in if truthy v then b else ret v.

Definition orElse (a b : M value) : M value :=
  let* v := a in if truthy v then ret v else b.

(** [m === c] for a number [c] *)
Definition strictEq (m : M value) (c : float) : M value :=
  let* v := m in
  ret (VBool match v with
             | VNum x => (x =? c)%float
             | _ => false
             end).

(** [if (c) { t } else { e }], [if (c) { t }] *)
Definition ifElse (c : M value) (t e : M unit) : M unit :=
  let* v := c in if truthy v then block t else block e.

Definition when (c : M value) (t : M unit) : M unit :=
  ifElse c t (ret tt).

(** [let x = m], [x = m], [const [x, y] = m], [return m] *)
Definition letBe (x : string) (m : M value) : M unit :=
  let* v := m in declare x v.

Definition assignTo (x : string) (m : M value) : M unit :=
  let* v := m in assign x v.

Definition letPair (x y : string) (m : M value) : M unit :=
  let* v := m in
  let* p := lift (destructure2 v) in
  declare x (fst p) ;;; declare y (snd p).

Definition returns (m : M value) : M unit :=
  let* v := m in returning v.

(** [{ k: m, ... }] *)
Fixpoint fields (ms : list (string * M value))
  : M (list (string * value)) :=
  match ms with
  | [] => ret []
  | (k, m) :: rest =>
      let* v := m in
      let* props := fields rest in
      ret ((k, v) :: props)
  end.

Definition object (ms : list (string * M value)) : M value :=
  let* props := fields ms in ret (VObj props).

(** The call of an arrow function [(param) => { body }]: the body runs
    on a store of its own that holds the argument. *)
Definition call (param : string) (body : M unit) (arg : value) (w : World)
  : completion value * World :=
  match body [(param, arg)] w with
  | (Done _, _, w') => (Normal VUndefined, w')
  | (Returned v, _, w') => (Normal v, w')
  | (Thrown, _, w') => (Throw, w')
  end.

(** The numeric operators convert their operands with [ToNumber]; [+]
    adds two numbers and does something else (concatenation, or a
    conversion first) with other operands.  As in the react-leaflet
    version, what happens to operands that are not numbers stays
    abstract. *)
Section Operators.
Variable StringToNumber : string -> float.
Variable ObjectToNumber : value -> completion float.
Variable addOther : value -> value -> completion value.

Definition toNumber (v : value) : M float :=
  lift (Leaflet.ToNumber StringToNumber ObjectToNumber v).

(** [isNaN(m)] *)
Definition isNaN (m : M value) : M value :=
  let* v := m in
  let* x := toNumber v in
  ret (VBool (is_nan x)).

(** [m >= c], [m <= c], [m > c] for a number [c] *)
Definition ge (m : M value) (c : float) : M value :=
  let* v := m in
  let* x := toNumber v in
  ret (VBool (c <=? x)%float).

Definition le (m : M value) (c : float) : M value :=
  let* v := m in
  let* x := toNumber v in
  ret (VBool (x <=? c)%float).

Definition gt (m : M value) (c : float) : M value :=
  let* v := m in
  let* x := toNumber v in
  ret (VBool (c <? x)%float).

(** [Math.min(a, b)], [Math.max(a, b)] *)
Definition mathMin (a b : M value) : M value :=
  let* u := a in
  let* v := b in
  let* x := toNumber u in
  let* y := toNumber v in
  ret (VNum (Math_min x y)).

Definition mathMax (a b : M value) : M value :=
  let* u := a in
  let* v := b in
  let* x := toNumber u in
  let* y := toNumber v in
  ret (VNum (Math_max x y)).

(** [a + b], [a - b], [m / c] *)
Definition add (a b : M value) : M value :=
  let* u := a in
  let* v := b in
  match u, v with
  | VNum x, VNum y => ret (VNum (x + y)%float)
  | _, _ => lift (addOther u v)
  end.

Definition sub (a b : M value) : M value :=
  let* u := a in
  let* v := b in
  let* x := toNumber u in
  let* y := toNumber v in
  ret (VNum (x - y)%float).

Definition div (m : M value) (c : float) : M value :=
  let* v := m in
  let* x := toNumber v in
  ret (VNum (x / c)%float).

(** [coord => { ... }] *)
Definition coordCallback : M unit :=
  letPair "lng" "lat" (read "coord") ;;;
  when (andAlso (andAlso (andAlso (andAlso (andAlso (andAlso (andAlso
          (typeofIs (read "lng") "number")
          (typeofIs (read "lat") "number"))
          (notOf (isNaN (read "lng"))))
          (notOf (isNaN (read "lat"))))
          (ge (read "lng") (-180)))
          (le (read "lng") 180))
          (ge (read "lat") (-90)))
          (le (read "lat") 90))
    (assignTo "minLat" (mathMin (read "minLat") (read "lat")) ;;;
     assignTo "maxLat" (mathMax (read "maxLat") (read "lat")) ;;;
     assignTo "minLng" (mathMin (read "minLng") (read "lng")) ;;;
     assignTo "maxLng" (mathMax (read "maxLng") (read "lng")) ;;;
     assignTo "hasValidCoords" (ret (VBool true))).

(** [ring => { ... }] *)
Definition ringCallback : M unit :=
  forEach (read "ring") "coord" coordCallback.

(** [feature => { ... }] *)
Definition featureCallback : M unit :=
  when (andAlso (dot (read "feature") "geometry")
            (dot (dot (read "feature") "geometry") "coordinates"))
    (forEach (dot (dot (read "feature") "geometry") "coordinates")
       "ring" ringCallback).

(** The body of [calculateBounds]. *)
Definition body : M unit :=
  when (orElse (notOf (read "features")) (lengthIs0 (read "features")))
    (returns (ret VNull)) ;;;
  letBe "minLat" (num infinity) ;;;
  letBe "maxLat" (num neg_infinity) ;;;
  letBe "minLng" (num infinity) ;;;
  letBe "maxLng" (num neg_infinity) ;;;
  letBe "hasValidCoords" (ret (VBool false)) ;;;
  forEach (read "features") "feature" featureCallback ;;;
  when (orElse (orElse (orElse (orElse
          (notOf (read "hasValidCoords"))
          (strictEq (read "minLat") infinity))
          (strictEq (read "maxLat") neg_infinity))
          (strictEq (read "minLng") infinity))
          (strictEq (read "maxLng") neg_infinity))
    (returns (object [("longitude", num (-96.7970));
                      ("latitude", num 32.9750);
                      ("zoom", num 9)])) ;;;
  letBe "centerLat" (div (add (read "minLat") (read "maxLat")) 2) ;;;
  letBe "centerLng" (div (add (read "minLng") (read "maxLng")) 2) ;;;
  letBe "latDiff" (sub (read "maxLat") (read "minLat")) ;;;
  letBe "lngDiff" (sub (read "maxLng") (read "minLng")) ;;;
  letBe "maxDiff" (mathMax (read "latDiff") (read "lngDiff")) ;;;
  letBe "zoom" (num 9) ;;;
  ifElse (gt (read "maxDiff") 3) (assignTo "zoom" (num 7))
  (ifElse (gt (read "maxDiff") 2) (assignTo "zoom" (num 8))
  (ifElse (gt (read "maxDiff") 1) (assignTo "zoom" (num 9))
  (ifElse (gt (read "maxDiff") 0.5) (assignTo "zoom" (num 10))
  (ifElse (gt (read "maxDiff") 0.2) (assignTo "zoom" (num 11))
  (ifElse (gt (read "maxDiff") 0.1) (assignTo "zoom" (num 12))
  (ifElse (gt (read "maxDiff") 0.05) (assignTo "zoom" (num 13))
  (assignTo "zoom" (num 14)))))))) ;;;
  returns (object [("longitude", read "centerLng");
                   ("latitude", read "centerLat");
                   ("zoom", read "zoom")]).

(** [const calculateBounds = (features) => { ... }] *)
Definition calculateBounds : value -> World -> completion value * World :=
  call "features" body.

(** [console.log('Calculated map view:', mapView)], the line of the
    handler that follows the call. *)
Definition logMapView : M unit :=
  let* mapView := read "mapView" in
  log [VStr "Calculated map view:"; mapView].
End Operators.

(** The number a zoom level of [Mapbox.ViewBounds] stands for. *)
Definition zoomNumber (z : Z) : float := PrimFloat.of_uint63 (Uint63.of_Z z).

(** The object [calculateBounds] returns for a view. *)
Definition viewObject (v : Mapbox.ViewBounds) : value :=
  VObj [("longitude", VNum (Mapbox.longitude v));
        ("latitude", VNum (Mapbox.latitude v));
        ("zoom", VNum (zoomNumber (Mapbox.zoom v)))].

(** The completion of the call that a completion of
    [Mapbox.calculateBounds] stands for. *)
Definition resultOf (c : completion (option Mapbox.ViewBounds))
  : completion value :=
  match c with
  | Normal None => Normal VNull
  | Normal (Some v) => Normal (viewObject v)
  | Throw => Throw
  end.

(** The store of a call of [calculateBounds] once its five variables
    are declared, and inside the callbacks. *)
Definition declared (features : value) (a : Mapbox.Acc) : env :=
  [("hasValidCoords", VBool (Mapbox.hasValidCoords a));
   ("maxLng", VNum (Mapbox.maxLng a)); ("minLng", VNum (Mapbox.minLng a));
   ("maxLat", VNum (Mapbox.maxLat a)); ("minLat", VNum (Mapbox.minLat a));
   ("features", features)].

Definition inFeature (feature features : value) (a : Mapbox.Acc) : env :=
  ("feature", feature) :: declared features a.

Definition inRing (ring feature features : value) (a : Mapbox.Acc) : env :=
  ("ring", ring) :: inFeature feature features a.

(** How a statement ends when its pure counterpart completes with [c],
    and the values its variables may hold then. *)
Definition status (c : completion Mapbox.Acc) : outcome unit :=
  match c with
  | Normal _ => Done tt
  | Throw => Thrown
  end.

Definition ends (c : completion Mapbox.Acc) (a : Mapbox.Acc) : Prop :=
  match c with
  | Normal a' => a = a'
  | Throw => True
  end.

End Imperative.

(** ** Loading the GeoJSON file

    Both versions of [Dashboard] run the same [.then] handler on the
    parsed file; it is written once, over the version's
    [calculateBounds]. *)

Module Dashboard.

Section Handler.
Variable View : Type.
Variable calculateBounds : value -> completion (option View).

(** The two state slots the handler writes; [geoJsonData] starts as
    [null]. *)
Record State : Type := mkState {
  mapView : View;
  geoJsonData : option value
}.

(** [feature => feature.properties && feature.properties.last_edited] *)
Definition hasLastEdited (feature : value) : completion value :=
  properties <- get feature "properties" ;;
  if truthy properties then get properties "last_edited"
  else Normal properties.

(** [{ ...data, features: ... }]; [data] is an object whenever
    [data.features] was an array. *)
Definition withFeatures (data : value) (features : value) : value :=
  match data with
  | VObj props => VObj (assign "features" features props)
  | _ => VObj [("features", features)]
  end.

(** The handler up to its two [set...] calls: the filtered data and
    the view.  The [console.log] lines are left out; the only one that
    can throw, [data.features[0]?.properties], throws exactly when
    [data.features.filter] does. *)
Definition loadGeoJson (data : value)
  : completion (value * option View) :=
  features <- get data "features" ;;
  filtered <- filter hasLastEdited features ;;
  let filteredData := withFeatures data filtered in
  mapView <- calculateBounds filtered ;;
  Normal (filteredData, mapView).

(** The whole promise chain: [setMapView] only under [if (mapView)],
    then [setGeoJsonData]; [.catch] logs the error and leaves the
    state as it was. *)
Definition onGeoJson (data : value) (st : State) : State :=
  match loadGeoJson data with
  | Normal (filteredData, Some view) => mkState view (Some filteredData)
  | Normal (filteredData, None) => mkState (mapView st) (Some filteredData)
  | Throw => st
  end.
End Handler.

Arguments mkState {View}.
Arguments mapView {View}.
Arguments geoJsonData {View}.

End Dashboard.

(** ** The vocabulary of the specification *)

Module Spec.

(** A value with an iterator, as array destructuring requires. *)
Definition iterable (v : value) : bool :=
  match v with
  | VArr _ | VStr _ => true
  | _ => false
  end.

(** A ring: an array of coordinate entries, each of them iterable. *)
Definition ringShape (ring : value) : bool :=
  match ring with
  | VArr coords => forallb iterable coords
  | _ => false
  end.

(** [feature.geometry.coordinates], when the feature has a truthy
    [geometry] with a truthy [coordinates]. *)
Definition coordinatesOf (feature : value) : option value :=
  match feature with
  | VObj props =>
      match lookup "geometry" props with
      | VObj gprops =>
          let coordinates := lookup "coordinates" gprops in
          if truthy coordinates then Some coordinates else None
      | _ => None
      end
  | _ => None
  end.

(** A feature of the data model: an actual value whose coordinates, if
    it has any, are an array of rings. *)
Definition featureShape (feature : value) : bool :=
  match feature with
  | VUndefined | VNull => false
  | _ =>
      match coordinatesOf feature with
      | Some (VArr rings) => forallb ringShape rings
      | Some _ => false
      | None => true
      end
  end.

Definition wellFormed (features : list value) : bool :=
  forallb featureShape features.

Definition ringsOf (feature : value) : list value :=
  match coordinatesOf feature with
  | Some (VArr rings) => rings
  | _ => []
  end.

Definition entriesOf (ring : value) : list value :=
  match ring with
  | VArr coords => coords
  | _ => []
  end.

(** Every coordinate entry of every ring of every feature, in order. *)
Definition coordsOf (features : list value) : list value :=
  flat_map (fun feature => flat_map entriesOf (ringsOf feature)) features.

(** The longitude and latitude components of a coordinate entry. *)
Definition components (coord : value) : value * value :=
  match coord with
  | VArr xs => (nth 0 xs VUndefined, nth 1 xs VUndefined)
  | VStr s => (strItem 0 s, strItem 1 s)
  | _ => (VUndefined, VUndefined)
  end.

Definition inRange (lo hi x : float) : Prop :=
  (lo <=? x)%float = true /\ (x <=? hi)%float = true.

(** The validity filter in the words of the specification. *)
Definition validPair (lng lat : value) : Prop :=
  exists x y,
    lng = VNum x /\ lat = VNum y /\
    is_finite x = true /\ is_finite y = true /\
    inRange (-180) 180 x /\ inRange (-90) 90 y.

Definition isValid (coord : value) : bool :=
  Mapbox.validCoord (fst (components coord)) (snd (components coord)).

Definition pairOf (coord : value) : list (float * float) :=
  match components coord with
  | (VNum x, VNum y) => if isValid coord then [(x, y)] else []
  | _ => []
  end.

(** The valid pairs of one ring and of one feature. *)
Definition pairsOfRing (ring : value) : list (float * float) :=
  flat_map pairOf (entriesOf ring).

Definition pairsOfFeature (feature : value) : list (float * float) :=
  flat_map pairOf (flat_map entriesOf (ringsOf feature)).

(** The valid [(longitude, latitude)] pairs of a feature sequence. *)
Definition validPairs (features : list value) : list (float * float) :=
  flat_map pairOf (coordsOf features).

Definition lngs (pairs : list (float * float)) : list float := map fst pairs.
Definition lats (pairs : list (float * float)) : list float := map snd pairs.

(** [Math.min(...l)] and [Math.max(...l)]. *)
Definition minOf (l : list float) : float := fold_left Math_min l infinity.
Definition maxOf (l : list float) : float :=
  fold_left Math_max l neg_infinity.

(** The spread: the larger of the latitude and the longitude extent. *)
Definition spreadOf (pairs : list (float * float)) : float :=
  Math_max (maxOf (lats pairs) - minOf (lats pairs))
           (maxOf (lngs pairs) - minOf (lngs pairs)).

(** The running extrema after the pairs [pairs], starting from [a]. *)
Definition accumulate (pairs : list (float * float)) (a : Mapbox.Acc)
  : Mapbox.Acc :=
  fold_left (fun a p => Mapbox.extend a (fst p) (snd p)) pairs a.

(** [m] is a least, resp. greatest, element of [l] in the numeric order. *)
Definition isMin (m : float) (l : list float) : Prop :=
  In m l /\ forall y, In y l -> (m <=? y)%float = true.
Definition isMax (m : float) (l : list float) : Prop :=
  In m l /\ forall y, In y l -> (y <=? m)%float = true.

(** The threshold ladder: the zoom of the first threshold, in descending
    order, that the spread exceeds, and 14 below all of them. *)
Definition ladder : list (float * Z) :=
  [(3%float, 7%Z); (2%float, 8%Z); (1%float, 9%Z); (0.5%float, 10%Z);
   (0.2%float, 11%Z); (0.1%float, 12%Z); (0.05%float, 13%Z)].

Fixpoint firstExceeded (steps : list (float * Z)) (spread : float) : Z :=
  match steps with
  | [] => 14
  | (threshold, z) :: rest =>
      if (threshold <? spread)%float then z else firstExceeded rest spread
  end.

(** The features the filter is meant to keep: objects whose [properties]
    is an object with a truthy [last_edited]. *)
Definition hasTimestamp (feature : value) : Prop :=
  exists props pprops,
    feature = VObj props /\
    lookup "properties" props = VObj pprops /\
    truthy (lookup "last_edited" pprops) = true.

(** The same, decided. *)
Definition timestamped (feature : value) : bool :=
  match feature with
  | VObj props =>
      match lookup "properties" props with
      | VObj pprops => truthy (lookup "last_edited" pprops)
      | _ => false
      end
  | _ => false
  end.

(** An entry of the [features] array that is an actual value. *)
Definition present (feature : value) : Prop :=
  feature <> VUndefined /\ feature <> VNull.

(** The running extrema of the react-leaflet version. *)
Definition accumulateLeaflet (pairs : list (float * float))
  (a : Leaflet.Acc) : Leaflet.Acc :=
  fold_left (fun a p => Leaflet.extend a (fst p) (snd p)) pairs a.

(** GeoJSON values for the examples: a position and a polygon feature
    with the given rings. *)
Definition point (lng lat : float) : value := VArr [VNum lng; VNum lat].

Definition polygon (rings : list (list value)) : value :=
  VObj [("type", VStr "Feature");
        ("geometry", VObj [("type", VStr "Polygon");
                           ("coordinates", VArr (map VArr rings))])].

(** A city feature with the attributes the dashboard reads. *)
Definition city (name : string) (last_edited : value)
  (rings : list (list value)) : value :=
  VObj [("type", VStr "Feature");
        ("properties", VObj [("CITY_NM", VStr name);
                             ("POP2022", VNum 1000);
                             ("last_edited", last_edited)]);
        ("geometry", VObj [("type", VStr "Polygon");
                           ("coordinates", VArr (map VArr rings))])].

Definition collection (features : list value) : value :=
  VObj [("type", VStr "FeatureCollection"); ("features", VArr features)].

End Spec.

(** ** The order of binary64 numbers

    The comparisons of [float] are specified through [Prim2SF]; a
    non-NaN number is ranked by a triple of integers whose lexicographic
    order is the numeric order, which reduces order facts to linear
    arithmetic. *)

Module FloatOrder.

Local Open Scope Z_scope.

Definition key (f : spec_float) : Z * Z * Z :=
  match f with
  | S754_nan => (0, 0, 0)
  | S754_zero _ => (0, 0, 0)
  | S754_infinity s => (if s then -2 else 2, 0, 0)
  | S754_finite s m e =>
      if s then (-1, - e, Z.neg m) else (1, e, Z.pos m)
  end.

Definition klt (a b : Z * Z * Z) : Prop :=
  let '(a1, a2, a3) := a in
  let '(b1, b2, b3) := b in
  a1 < b1 \/ (a1 = b1 /\ (a2 < b2 \/ (a2 = b2 /\ a3 < b3))).

Definition keq (a b : Z * Z * Z) : Prop :=
  let '(a1, a2, a3) := a in
  let '(b1, b2, b3) := b in
  a1 = b1 /\ a2 = b2 /\ a3 = b3.

Definition kcmp (a b : Z * Z * Z) : comparison :=
  let '(a1, a2, a3) := a in
  let '(b1, b2, b3) := b in
  match a1 ?= b1 with
  | Eq => match a2 ?= b2 with Eq => a3 ?= b3 | c => c end
  | c => c
  end.

Definition fkey (x : float) : Z * Z * Z := key (Prim2SF x).
Definition num (x : float) : Prop := Prim2SF x <> S754_nan.

End FloatOrder.

(** ** Further vocabulary: other geometries and unfiltered pairs *)

Module Shapes.
Import Spec.

(** A GeoJSON position [[lng, lat]] from a pair of numbers. *)
Definition position (p : float * float) : value := point (fst p) (snd p).

(** A GeoJSON [MultiPolygon] feature: its [coordinates] are an array of
    polygons, each an array of rings, each an array of positions. *)
Definition multiPolygon (polygons : list (list (list (float * float))))
  : value :=
  VObj [("type", VStr "Feature");
        ("geometry",
         VObj [("type", VStr "MultiPolygon");
               ("coordinates",
                VArr (map (fun rings =>
                             VArr (map (fun ring => VArr (map position ring))
                                       rings))
                          polygons))])].

(** A coordinate entry that is an array of numbers, of any length. *)
Definition isNumber (v : value) : bool :=
  match v with
  | VNum _ => true
  | _ => false
  end.

Definition numbersOnly (coord : value) : bool :=
  match coord with
  | VArr xs => forallb isNumber xs
  | _ => false
  end.

(** The [n]-th number of such an entry as [Math.min] receives it:
    [NaN] when the entry is too short. *)
Definition component (n : nat) (xs : list value) : float :=
  match nth n xs VUndefined with
  | VNum x => x
  | _ => nan
  end.

Definition readPair (coord : value) : list (float * float) :=
  match coord with
  | VArr xs => [(component 0 xs, component 1 xs)]
  | _ => []
  end.

(** The pairs of all the coordinate entries, valid or not. *)
Definition readPairs (features : list value) : list (float * float) :=
  flat_map readPair (coordsOf features).

(** An entry with fewer than two components. *)
Definition short (coord : value) : bool :=
  match coord with
  | VArr (_ :: _ :: _) => false
  | _ => true
  end.

End Shapes.

(** ** Telling the zeros apart

    [Math.min] and [Math.max] order [-0] below [+0]; the key of a zero
    gets its sign, which makes the keys of two different numbers
    different. *)

Module FloatTotal.
Import FloatOrder.
Local Open Scope Z_scope.

Definition tkey (f : spec_float) : Z * Z * Z :=
  match f with
  | S754_zero s => (0, 0, if s then -1 else 0)
  | _ => key f
  end.

Definition ftkey (x : float) : Z * Z * Z := tkey (Prim2SF x).

End FloatTotal.

(** ** What the [Map] element receives (react-map-gl version) *)

Module MapProps.
Import Mapbox.

(** [x || d] on a number [x]. *)
Definition orNumber (x d : float) : float :=
  if truthy (VNum x) then x else d.

(** The [longitude], [latitude] and [zoom] attributes of [<Map>]. *)
Record Props : Type := mkProps {
  propLongitude : float;
  propLatitude : float;
  propZoom : Z
}.

Definition mapProps (mapView : ViewBounds) : Props :=
  mkProps (orNumber (longitude mapView) (-96.7970)%float)
          (orNumber (latitude mapView) 32.9750%float)
          (if Z.eqb (zoom mapView) 0 then 9%Z else zoom mapView).

End MapProps.

(** ** The summary file and its charts

    The [complete] callback of [Papa.parse('/sample_data_2.csv', ...)]
    and [renderCompletenessLabel].  A row is an object whose cells are
    the values that [dynamicTyping] produces.  [parseFloat] (a string
    conversion followed by a numeric-prefix parser) stays abstract, as
    do the conversions behind [>] on a cell that is not a number. *)

Module Charts.

(** [{ name, value }] with the cell as read. *)
Record Item : Type := mkItem {
  name : string;
  value : JS.value
}.

(** [{ name, value }] of a completeness chart. *)
Record Slice : Type := mkSlice {
  sliceName : string;
  sliceValue : float
}.

(** [{ title, data }]. *)
Record Chart : Type := mkChart {
  title : string;
  data : list Slice
}.

(** The [pieData] state. *)
Record PieData : Type := mkPieData {
  quality : list Item;
  completenessCharts : list Chart
}.

(** The metrics of the two map versions and of [src/App.js]. *)
Definition completenessMetrics : list string :=
  ["Descriptions"; "Locations"; "Contacts"; "Links to Extra Documents"].

Definition completenessMetricsApp : list string :=
  ["Descriptions"; "Locations"; "Contacts"; "Links to Extra Documents";
   "Minutes Posted"].

Section Handler.
Variable StringToNumber : string -> float.
Variable ObjectToNumber : JS.value -> completion float.
Variable parseFloat : JS.value -> completion float.

(** [item.value > 0] *)
Definition positive (v : JS.value) : completion bool :=
  n <- Leaflet.ToNumber StringToNumber ObjectToNumber v ;;
  Normal (0 <? n)%float.

(** [.filter(item => item.value > 0)] *)
Fixpoint filterPositive (items : list Item) : completion (list Item) :=
  match items with
  | [] => Normal []
  | item :: rest =>
      keep <- positive (value item) ;;
      kept <- filterPositive rest ;;
      Normal (if keep then item :: kept else kept)
  end.

Definition qualityData (summaryData : JS.value) : completion (list Item) :=
  veryGood <- get summaryData "Very Good" ;;
  good <- get summaryData "Good" ;;
  normal <- get summaryData "Normal" ;;
  poor <- get summaryData "Poor" ;;
  filterPositive [mkItem "Very Good" veryGood; mkItem "Good" good;
                  mkItem "Normal" normal; mkItem "Poor" poor].

(** The callback of [completenessMetrics.map]; [None] is its [null]. *)
Definition chartFor (summaryData : JS.value) (metric : string)
  : completion (option Chart) :=
  cell <- get summaryData metric ;;
  yesPercentage <- parseFloat cell ;;
  if is_nan yesPercentage then Normal None
  else
    Normal (Some (mkChart metric
                    [mkSlice "Yes" (yesPercentage * 100)%float;
                     mkSlice "No" ((1 - yesPercentage) * 100)%float])).

Fixpoint mapCharts (summaryData : JS.value) (metrics : list string)
  : completion (list (option Chart)) :=
  match metrics with
  | [] => Normal []
  | metric :: rest =>
      chart <- chartFor summaryData metric ;;
      charts <- mapCharts summaryData rest ;;
      Normal (chart :: charts)
  end.

(** [.filter(Boolean)] *)
Fixpoint dropNulls (charts : list (option Chart)) : list Chart :=
  match charts with
  | [] => []
  | Some chart :: rest => chart :: dropNulls rest
  | None :: rest => dropNulls rest
  end.

Definition completenessChartsOf (metrics : list string)
  (summaryData : JS.value) : completion (list Chart) :=
  charts <- mapCharts summaryData metrics ;;
  Normal (dropNulls charts).

(** The callback on [result.data]: nothing is set for a file without
    rows. *)
Definition onSummary (metrics : list string) (rows : list JS.value)
  (pieData : option PieData) : completion (option PieData) :=
  match rows with
  | [] => Normal pieData
  | summaryData :: _ =>
      quality <- qualityData summaryData ;;
      charts <- completenessChartsOf metrics summaryData ;;
      Normal (Some (mkPieData quality charts))
  end.
End Handler.

(** [renderCompletenessLabel]: the number whose [toFixed(0)] is shown
    in the middle of the donut. *)
Definition yesPercentage (data : list Slice) : float :=
  match List.find (fun item => String.eqb (sliceName item) "Yes") data with
  | Some yesData => sliceValue yesData
  | None => 0%float
  end.

(** [chart.data[0]?.name === 'Yes'], the condition of the center label
    in [src/App.js]. *)
Definition firstIsYes (data : list Slice) : bool :=
  match data with
  | item :: _ => String.eqb (sliceName item) "Yes"
  | [] => false
  end.

(** A cell as the quality counts have it: a number, or [null] for an
    empty cell, or [undefined] for a missing column. *)
Definition countCell (v : JS.value) : bool :=
  match v with
  | VNum _ | VNull | VUndefined => true
  | _ => false
  end.

(** [l] is [l'] with some elements left out. *)
Inductive Sublist {A : Type} : list A -> list A -> Prop :=
| sub_nil : Sublist [] []
| sub_keep x l l' : Sublist l l' -> Sublist (x :: l) (x :: l')
| sub_drop x l l' : Sublist l l' -> Sublist l (x :: l').

End Charts.

(** * Properties *)

(** ** Order facts on binary64 numbers *)

Module FloatOrderFacts.
Import FloatOrder.
Local Open Scope Z_scope.

Lemma kcmp_Lt a b : kcmp a b = Lt <-> klt a b.
Proof.
  destruct a as [[a1 a2] a3], b as [[b1 b2] b3]; unfold kcmp, klt.
  destruct (Z.compare_spec a1 b1), (Z.compare_spec a2 b2),
    (Z.compare_spec a3 b3); split; intros; try discriminate; try lia;
    reflexivity.
Qed.

Lemma kcmp_Eq a b : kcmp a b = Eq <-> keq a b.
Proof.
  destruct a as [[a1 a2] a3], b as [[b1 b2] b3]; unfold kcmp, keq.
  destruct (Z.compare_spec a1 b1), (Z.compare_spec a2 b2),
    (Z.compare_spec a3 b3); split; intros; try discriminate; try lia;
    reflexivity.
Qed.

Lemma SFcompare_key x y :
  x <> S754_nan -> y <> S754_nan ->
  SFcompare x y = Some (kcmp (key x) (key y)).
Proof.
  intros Hx Hy.
  destruct x as [sx | sx | | sx mx ex], y as [sy | sy | | sy my ey];
    try congruence;
    try (destruct sx); try (destruct sy); try reflexivity.
  cbn [SFcompare key kcmp Z.compare].
  rewrite Z.compare_opp, (Z.compare_antisym ex ey).
  destruct (ex ?= ey); reflexivity.
Qed.


(** The three comparisons of the kernel, read on the keys. *)
Lemma ltb_key x y :
  (x <? y)%float = true <-> num x /\ num y /\ klt (fkey x) (fkey y).
Proof.
  rewrite ltb_spec. unfold SFltb, num, fkey.
  destruct (Prim2SF x) eqn:Ex, (Prim2SF y) eqn:Ey;
    try (cbn; split; [discriminate | intros (? & ? & _); congruence]);
    (rewrite SFcompare_key by discriminate; rewrite <- kcmp_Lt;
     destruct (kcmp _ _);
     (split;
      [ intros H; try discriminate H; repeat split;
        try discriminate; reflexivity
      | intros (_ & _ & H); try discriminate H; reflexivity ])).
Qed.

Lemma eqb_key x y :
  (x =? y)%float = true <-> num x /\ num y /\ keq (fkey x) (fkey y).
Proof.
  rewrite eqb_spec. unfold SFeqb, num, fkey.
  destruct (Prim2SF x) eqn:Ex, (Prim2SF y) eqn:Ey;
    try (cbn; split; [discriminate | intros (? & ? & _); congruence]);
    (rewrite SFcompare_key by discriminate; rewrite <- kcmp_Eq;
     destruct (kcmp _ _);
     (split;
      [ intros H; try discriminate H; repeat split;
        try discriminate; reflexivity
      | intros (_ & _ & H); try discriminate H; reflexivity ])).
Qed.

Lemma leb_key x y :
  (x <=? y)%float = true <->
  num x /\ num y /\ (klt (fkey x) (fkey y) \/ keq (fkey x) (fkey y)).
Proof.
  rewrite leb_spec. unfold SFleb, num, fkey.
  destruct (Prim2SF x) eqn:Ex, (Prim2SF y) eqn:Ey;
    try (cbn; split; [discriminate | intros (? & ? & _); congruence]);
    (rewrite SFcompare_key by discriminate;
     rewrite <- kcmp_Lt, <- kcmp_Eq;
     destruct (kcmp _ _);
     (split;
      [ intros H; try discriminate H; repeat split;
        try discriminate; auto
      | intros (_ & _ & [H | H]); try discriminate H; reflexivity ])).
Qed.

Lemma is_nan_num x : is_nan x = false <-> num x.
Proof.
  unfold is_nan. rewrite negb_false_iff, eqb_key. unfold num, fkey.
  split; [ intros (? & _); assumption | intros H; repeat split; auto ].
  destruct (key (Prim2SF x)) as [[a b] c]. cbn. auto.
Qed.


(** Order facts by arithmetic on the keys. *)
Ltac to_keys :=
  repeat match goal with
  | H : (_ <? _)%float = true |- _ => apply ltb_key in H
  | H : (_ <=? _)%float = true |- _ => apply leb_key in H
  | H : (_ =? _)%float = true |- _ => apply eqb_key in H
  | H : (_ <? _)%float = false |- _ =>
      apply not_true_iff_false in H; rewrite ltb_key in H
  | H : (_ <=? _)%float = false |- _ =>
      apply not_true_iff_false in H; rewrite leb_key in H
  | H : is_nan _ = false |- _ => apply is_nan_num in H
  | |- (_ <? _)%float = true => apply ltb_key
  | |- (_ <=? _)%float = true => apply leb_key
  | |- (_ =? _)%float = true => apply eqb_key
  | |- (_ <? _)%float = false =>
      apply not_true_iff_false; rewrite ltb_key
  | |- (_ <=? _)%float = false =>
      apply not_true_iff_false; rewrite leb_key
  | |- (_ =? _)%float = false =>
      apply not_true_iff_false; rewrite eqb_key
  | |- is_nan _ = false => apply is_nan_num
  end;
  repeat match goal with
  | |- context [fkey ?x] => destruct (fkey x) as [[? ?] ?]
  | H : context [fkey ?x] |- _ => destruct (fkey x) as [[? ?] ?]
  end;
  cbn [klt keq] in *.

Ltac forder := intros; to_keys; intuition lia.

Lemma leb_trans x y z :
  (x <=? y)%float = true -> (y <=? z)%float = true ->
  (x <=? z)%float = true.
Proof. forder. Qed.

Lemma ltb_leb_trans x y z :
  (x <? y)%float = true -> (y <=? z)%float = true ->
  (x <? z)%float = true.
Proof. forder. Qed.

Lemma leb_ltb_trans x y z :
  (x <=? y)%float = true -> (y <? z)%float = true ->
  (x <? z)%float = true.
Proof. forder. Qed.

Lemma ltb_leb x y : (x <? y)%float = true -> (x <=? y)%float = true.
Proof. forder. Qed.

Lemma leb_refl x : is_nan x = false -> (x <=? x)%float = true.
Proof. forder. Qed.

Lemma leb_is_nan_l x y : (x <=? y)%float = true -> is_nan x = false.
Proof. forder. Qed.

Lemma leb_is_nan_r x y : (x <=? y)%float = true -> is_nan y = false.
Proof. forder. Qed.

Lemma not_ltb_leb x y :
  is_nan x = false -> is_nan y = false ->
  (y <? x)%float = false -> (x <=? y)%float = true.
Proof. forder. Qed.

Lemma ltb_not_leb x y : (x <? y)%float = true -> (y <=? x)%float = false.
Proof. forder. Qed.

Lemma leb_not_ltb x y : (x <=? y)%float = true -> (y <? x)%float = false.
Proof. forder. Qed.

Lemma eqb_leb x y : (x =? y)%float = true -> (x <=? y)%float = true.
Proof. forder. Qed.

Lemma eqb_sym x y : (x =? y)%float = true -> (y =? x)%float = true.
Proof. forder. Qed.

Lemma eqb_eqb_leb x y z :
  (x =? z)%float = true -> (y =? z)%float = true ->
  (x <=? y)%float = true.
Proof. forder. Qed.


Lemma ltb_not_eqb x y : (x <? y)%float = true -> (x =? y)%float = false.
Proof. forder. Qed.

Lemma gtb_not_eqb x y : (y <? x)%float = true -> (x =? y)%float = false.
Proof. forder. Qed.

(** A number strictly between the infinities is finite. *)
Lemma between_infinities_finite x :
  (neg_infinity <? x)%float = true -> (x <? infinity)%float = true ->
  is_finite x = true.
Proof.
  intros Hlo Hhi. unfold is_finite, is_infinity.
  assert (Hn : is_nan x = false) by (to_keys; tauto).
  rewrite Hn, eqb_spec, abs_spec. rewrite ltb_spec in Hlo, Hhi.
  change (Prim2SF infinity) with (S754_infinity false) in *.
  change (Prim2SF neg_infinity) with (S754_infinity true) in *.
  destruct (Prim2SF x) as [s | [|] | | s m e]; try reflexivity;
    discriminate.
Qed.

Lemma finite_not_nan x : is_finite x = true -> is_nan x = false.
Proof.
  unfold is_finite. rewrite negb_true_iff, orb_false_iff. tauto.
Qed.

End FloatOrderFacts.

(** ** [Math.min] and [Math.max] *)

Module MathFacts.
Import FloatOrderFacts.
Local Open Scope float_scope.

Lemma Math_min_cases x y :
  is_nan x = false -> is_nan y = false ->
  Math_min x y = x \/ Math_min x y = y.
Proof.
  intros Hx Hy. unfold Math_min. rewrite Hx, Hy. cbn [orb].
  destruct (is_neg_zero y && is_pos_zero x), (y <? x); auto.
Qed.

Lemma Math_max_cases x y :
  is_nan x = false -> is_nan y = false ->
  Math_max x y = x \/ Math_max x y = y.
Proof.
  intros Hx Hy. unfold Math_max. rewrite Hx, Hy. cbn [orb].
  destruct (is_pos_zero y && is_neg_zero x), (x <? y); auto.
Qed.

Lemma zeros_leb x y :
  is_zero x = true -> is_zero y = true -> (x <=? y) = true.
Proof. unfold is_zero. apply eqb_eqb_leb. Qed.

Lemma Math_min_lower x y :
  is_nan x = false -> is_nan y = false ->
  (Math_min x y <=? x) = true /\ (Math_min x y <=? y) = true.
Proof.
  intros Hx Hy. unfold Math_min. rewrite Hx, Hy. cbn [orb].
  destruct (is_neg_zero y && is_pos_zero x) eqn:Hz.
  - unfold is_neg_zero, is_pos_zero in Hz.
    rewrite !andb_true_iff in Hz. destruct Hz as [[Zy _] [Zx _]].
    split; [apply zeros_leb | apply leb_refl]; assumption.
  - destruct (y <? x) eqn:Hlt.
    + split; [apply ltb_leb | apply leb_refl]; assumption.
    + split; [apply leb_refl | apply not_ltb_leb]; assumption.
Qed.

Lemma Math_max_upper x y :
  is_nan x = false -> is_nan y = false ->
  (x <=? Math_max x y) = true /\ (y <=? Math_max x y) = true.
Proof.
  intros Hx Hy. unfold Math_max. rewrite Hx, Hy. cbn [orb].
  destruct (is_pos_zero y && is_neg_zero x) eqn:Hz.
  - unfold is_neg_zero, is_pos_zero in Hz.
    rewrite !andb_true_iff in Hz. destruct Hz as [[Zy _] [Zx _]].
    split; [apply zeros_leb | apply leb_refl]; assumption.
  - destruct (x <? y) eqn:Hlt.
    + split; [apply ltb_leb | apply leb_refl]; assumption.
    + split; [apply leb_refl | apply not_ltb_leb]; assumption.
Qed.

Lemma Math_min_infinity y : (y <? infinity) = true -> Math_min infinity y = y.
Proof.
  intros H. unfold Math_min.
  assert (Hn : is_nan y = false) by (to_keys; tauto).
  rewrite Hn, H.
  change (is_nan infinity) with false.
  change (is_pos_zero infinity) with false.
  rewrite andb_false_r. reflexivity.
Qed.

Lemma Math_max_neg_infinity y :
  (neg_infinity <? y) = true -> Math_max neg_infinity y = y.
Proof.
  intros H. unfold Math_max.
  assert (Hn : is_nan y = false) by (to_keys; tauto).
  rewrite Hn, H.
  change (is_nan neg_infinity) with false.
  change (is_neg_zero neg_infinity) with false.
  rewrite andb_false_r. reflexivity.
Qed.

End MathFacts.

(** ** Extrema of a list *)

Module ExtremaFacts.
Import Spec FloatOrderFacts MathFacts.
Local Open Scope float_scope.

Lemma isMin_num m l : isMin m l -> is_nan m = false.
Proof. intros [Hin Hle]. exact (leb_is_nan_l _ _ (Hle m Hin)). Qed.

Lemma isMax_num m l : isMax m l -> is_nan m = false.
Proof. intros [Hin Hle]. exact (leb_is_nan_l _ _ (Hle m Hin)). Qed.

Lemma isMin_step m seen y :
  isMin m seen -> is_nan y = false ->
  isMin (Math_min m y) (seen ++ [y]).
Proof.
  intros Hm Hy. pose proof (isMin_num _ _ Hm) as Hn.
  destruct Hm as [Hin Hle].
  destruct (Math_min_lower m y Hn Hy) as [Hl Hr].
  split.
  - apply in_or_app.
    destruct (Math_min_cases m y Hn Hy) as [-> | ->];
      [left; assumption | right; left; reflexivity].
  - intros z Hz. apply in_app_or in Hz. destruct Hz as [Hz | [<- | []]].
    + exact (leb_trans _ _ _ Hl (Hle z Hz)).
    + exact Hr.
Qed.

Lemma isMax_step m seen y :
  isMax m seen -> is_nan y = false ->
  isMax (Math_max m y) (seen ++ [y]).
Proof.
  intros Hm Hy. pose proof (isMax_num _ _ Hm) as Hn.
  destruct Hm as [Hin Hle].
  destruct (Math_max_upper m y Hn Hy) as [Hl Hr].
  split.
  - apply in_or_app.
    destruct (Math_max_cases m y Hn Hy) as [-> | ->];
      [left; assumption | right; left; reflexivity].
  - intros z Hz. apply in_app_or in Hz. destruct Hz as [Hz | [<- | []]].
    + exact (leb_trans _ _ _ (Hle z Hz) Hl).
    + exact Hr.
Qed.

Lemma fold_min_isMin rest :
  forall m seen,
    isMin m seen -> (forall y, In y rest -> is_nan y = false) ->
    isMin (fold_left Math_min rest m) (seen ++ rest).
Proof.
  induction rest as [| y rest IH]; intros m seen Hm Hrest.
  - rewrite app_nil_r. exact Hm.
  - cbn [fold_left].
    replace (seen ++ y :: rest) with ((seen ++ [y]) ++ rest)
      by (rewrite <- app_assoc; reflexivity).
    apply IH.
    + apply isMin_step; [assumption | apply Hrest; left; reflexivity].
    + intros z Hz. apply Hrest. right. assumption.
Qed.

Lemma fold_max_isMax rest :
  forall m seen,
    isMax m seen -> (forall y, In y rest -> is_nan y = false) ->
    isMax (fold_left Math_max rest m) (seen ++ rest).
Proof.
  induction rest as [| y rest IH]; intros m seen Hm Hrest.
  - rewrite app_nil_r. exact Hm.
  - cbn [fold_left].
    replace (seen ++ y :: rest) with ((seen ++ [y]) ++ rest)
      by (rewrite <- app_assoc; reflexivity).
    apply IH.
    + apply isMax_step; [assumption | apply Hrest; left; reflexivity].
    + intros z Hz. apply Hrest. right. assumption.
Qed.

Lemma isMin_singleton y : is_nan y = false -> isMin y [y].
Proof.
  intros Hy. split; [left; reflexivity |].
  intros z [<- | []]. apply leb_refl. assumption.
Qed.

Lemma isMax_singleton y : is_nan y = false -> isMax y [y].
Proof.
  intros Hy. split; [left; reflexivity |].
  intros z [<- | []]. apply leb_refl. assumption.
Qed.

(** [Math.min(...l)] of finitely bounded numbers is a least element. *)
Lemma minOf_isMin l :
  l <> [] -> (forall y, In y l -> (y <? infinity) = true) ->
  isMin (minOf l) l.
Proof.
  destruct l as [| y rest]; [congruence |]. intros _ Hl.
  assert (Hnum : forall z, In z (y :: rest) -> is_nan z = false).
  { intros z Hz. specialize (Hl z Hz). to_keys. tauto. }
  unfold minOf. cbn [fold_left].
  rewrite Math_min_infinity by (apply Hl; left; reflexivity).
  apply (fold_min_isMin rest y [y]).
  - apply isMin_singleton, Hnum. left. reflexivity.
  - intros z Hz. apply Hnum. right. assumption.
Qed.

Lemma maxOf_isMax l :
  l <> [] -> (forall y, In y l -> (neg_infinity <? y) = true) ->
  isMax (maxOf l) l.
Proof.
  destruct l as [| y rest]; [congruence |]. intros _ Hl.
  assert (Hnum : forall z, In z (y :: rest) -> is_nan z = false).
  { intros z Hz. specialize (Hl z Hz). to_keys. tauto. }
  unfold maxOf. cbn [fold_left].
  rewrite Math_max_neg_infinity by (apply Hl; left; reflexivity).
  apply (fold_max_isMax rest y [y]).
  - apply isMax_singleton, Hnum. left. reflexivity.
  - intros z Hz. apply Hnum. right. assumption.
Qed.

End ExtremaFacts.

(** ** The loops of the react-map-gl version *)

Module ScanFacts.
Import Spec Mapbox.

Lemma accumulate_app l1 l2 a :
  accumulate (l1 ++ l2) a = accumulate l2 (accumulate l1 a).
Proof. apply fold_left_app. Qed.

Lemma flat_map_nested {A B C : Type} (f : B -> list C) (g : A -> list B) l :
  flat_map f (flat_map g l) = flat_map (fun x => flat_map f (g x)) l.
Proof.
  induction l as [| x l IH]; [reflexivity |].
  cbn [flat_map]. rewrite flat_map_app, IH. reflexivity.
Qed.

Lemma forallb_false {A : Type} (f : A -> bool) l :
  forallb f l = false -> exists x, In x l /\ f x = false.
Proof.
  induction l as [| x l IH]; [discriminate |].
  cbn [forallb]. destruct (f x) eqn:Hx.
  - intros H. destruct (IH H) as (z & Hz & Hf).
    exists z. split; [right |]; assumption.
  - intros _. exists x. split; [left; reflexivity | assumption].
Qed.

Section Loops.
Variable body : value -> Acc -> completion Acc.
Variable found : value -> list (float * float).

(** A loop whose iterations all complete accumulates what they find. *)
Lemma forEachList_completes xs :
  (forall x, In x xs -> forall a, body x a = Normal (accumulate (found x) a)) ->
  forall a,
    forEachList body xs a = Normal (accumulate (flat_map found xs) a).
Proof.
  induction xs as [| x xs IH]; intros Hbody a; [reflexivity |].
  cbn [forEachList flat_map].
  rewrite (Hbody x (or_introl eq_refl)). cbn [bind].
  rewrite accumulate_app. apply IH.
  intros z Hz. apply Hbody. right. assumption.
Qed.

(** A loop with an iteration that throws in every state throws. *)
Lemma forEachList_throws xs :
  (exists x, In x xs /\ forall a, body x a = Throw) ->
  forall a, forEachList body xs a = Throw.
Proof.
  induction xs as [| x xs IH]; intros (z & Hz & Hthrow) a.
  - destruct Hz.
  - cbn [forEachList]. destruct (body x a) as [a' |] eqn:Hx;
      [| reflexivity].
    cbn [bind]. apply IH. destruct Hz as [-> | Hz].
    + rewrite Hthrow in Hx. discriminate.
    + exists z. split; assumption.
Qed.
End Loops.

Lemma visitCoord_iterable coord a :
  iterable coord = true ->
  visitCoord coord a = Normal (accumulate (pairOf coord) a).
Proof.
  intros H. unfold visitCoord, pairOf, isValid.
  destruct coord; try discriminate H; cbn [destructure2 components bind];
    match goal with
    | |- context [(?u, ?v)] => destruct u, v
    end; cbn [fst snd]; try reflexivity;
    match goal with
    | |- context [validCoord ?u ?v] => destruct (validCoord u v)
    end; reflexivity.
Qed.

Lemma visitCoord_not_iterable coord a :
  iterable coord = false -> visitCoord coord a = Throw.
Proof. destruct coord; try discriminate; reflexivity. Qed.

Lemma visitRing_shape ring a :
  ringShape ring = true ->
  visitRing ring a = Normal (accumulate (pairsOfRing ring) a).
Proof.
  destruct ring; try discriminate. cbn [ringShape]. intros H.
  unfold visitRing, forEach, pairsOfRing, entriesOf.
  apply forEachList_completes. intros c Hc a'.
  apply visitCoord_iterable.
  rewrite forallb_forall in H. apply H. assumption.
Qed.

Lemma visitRing_no_shape ring a :
  ringShape ring = false -> visitRing ring a = Throw.
Proof.
  destruct ring; try reflexivity. cbn [ringShape]. intros H.
  unfold visitRing, forEach. apply forEachList_throws.
  destruct (forallb_false _ _ H) as (c & Hc & Hi).
  exists c. split; [assumption |].
  intros a'. apply visitCoord_not_iterable. assumption.
Qed.

Lemma visitFeature_shape feature a :
  featureShape feature = true ->
  visitFeature feature a = Normal (accumulate (pairsOfFeature feature) a).
Proof.
  unfold featureShape, visitFeature, pairsOfFeature, ringsOf, coordinatesOf.
  destruct feature as [| | b | x | s | xs | props]; try discriminate;
    try reflexivity.
  cbn [get bind].
  destruct (lookup "geometry" props) as [| | b | x | s | xs | gprops];
    cbn [truthy get bind];
    try reflexivity;
    try match goal with
        | |- context [if ?c then _ else _] => destruct c; reflexivity
        end.
  destruct (truthy (lookup "coordinates" gprops)); [| reflexivity].
  destruct (lookup "coordinates" gprops) as [| | b | x | s | rings | cprops];
    try discriminate.
  intros H. unfold forEach. rewrite flat_map_nested.
  apply forEachList_completes. intros r Hr a'.
  apply visitRing_shape. rewrite forallb_forall in H. apply H. assumption.
Qed.

Lemma visitFeature_no_shape feature a :
  featureShape feature = false -> visitFeature feature a = Throw.
Proof.
  unfold featureShape, visitFeature, coordinatesOf.
  destruct feature as [| | b | x | s | xs | props]; try discriminate;
    try reflexivity.
  cbn [get bind].
  destruct (lookup "geometry" props) as [| | b | x | s | xs | gprops];
    try discriminate.
  cbn [truthy get bind].
  destruct (truthy (lookup "coordinates" gprops)); [| discriminate].
  destruct (lookup "coordinates" gprops) as [| | b | x | s | rings | cprops];
    try reflexivity.
  intros H. unfold forEach. apply forEachList_throws.
  destruct (forallb_false _ _ H) as (r & Hr & Hs).
  exists r. split; [assumption |].
  intros a'. apply visitRing_no_shape. assumption.
Qed.

Lemma validPairs_features features :
  validPairs features = flat_map pairsOfFeature features.
Proof. unfold validPairs, coordsOf. apply flat_map_nested. Qed.

Lemma scan_wellFormed features a :
  wellFormed features = true ->
  forEachList visitFeature features a
  = Normal (accumulate (validPairs features) a).
Proof.
  intros H. rewrite validPairs_features.
  apply forEachList_completes. intros f Hf a'.
  apply visitFeature_shape.
  unfold wellFormed in H. rewrite forallb_forall in H. apply H. assumption.
Qed.

Lemma scan_not_wellFormed features a :
  wellFormed features = false ->
  forEachList visitFeature features a = Throw.
Proof.
  intros H. apply forEachList_throws.
  destruct (forallb_false _ _ H) as (f & Hf & Hs).
  exists f. split; [assumption |].
  intros a'. apply visitFeature_no_shape. assumption.
Qed.

Lemma calculateBounds_nil : calculateBounds (VArr []) = Normal None.
Proof. reflexivity. Qed.

Lemma calculateBounds_wellFormed features :
  features <> [] -> wellFormed features = true ->
  calculateBounds (VArr features)
  = Normal (Some (viewOf (accumulate (validPairs features) initAcc))).
Proof.
  intros Hne Hwf. destruct features as [| f fs]; [congruence |].
  unfold calculateBounds. cbn [truthy negb lengthIsZero orb forEach].
  rewrite scan_wellFormed by assumption. reflexivity.
Qed.

Lemma calculateBounds_not_wellFormed features :
  features <> [] -> wellFormed features = false ->
  calculateBounds (VArr features) = Throw.
Proof.
  intros Hne Hwf. destruct features as [| f fs]; [congruence |].
  unfold calculateBounds. cbn [truthy negb lengthIsZero orb forEach].
  rewrite scan_not_wellFormed by assumption. reflexivity.
Qed.

End ScanFacts.

(** ** The extrema the loops end with *)

Module BoundsFacts.
Import Spec Mapbox FloatOrderFacts MathFacts ExtremaFacts ScanFacts.
Local Open Scope float_scope.

Lemma accumulate_fields pairs :
  forall a,
    accumulate pairs a
    = mkAcc (fold_left Math_min (lats pairs) (minLat a))
            (fold_left Math_max (lats pairs) (maxLat a))
            (fold_left Math_min (lngs pairs) (minLng a))
            (fold_left Math_max (lngs pairs) (maxLng a))
            (match pairs with [] => hasValidCoords a | _ => true end).
Proof.
  induction pairs as [| [x y] pairs IH]; intros a.
  - destruct a; reflexivity.
  - unfold accumulate in *. cbn [fold_left lats lngs map fst snd].
    rewrite IH. cbn [extend minLat maxLat minLng maxLng hasValidCoords].
    destruct pairs; reflexivity.
Qed.

Lemma accumulate_init pairs :
  accumulate pairs initAcc
  = mkAcc (minOf (lats pairs)) (maxOf (lats pairs))
          (minOf (lngs pairs)) (maxOf (lngs pairs))
          (match pairs with [] => false | _ => true end).
Proof. rewrite accumulate_fields. reflexivity. Qed.

Lemma validCoord_true x y :
  validCoord (VNum x) (VNum y) = true <->
  is_nan x = false /\ is_nan y = false /\
  inRange (-180) 180 x /\ inRange (-90) 90 y.
Proof.
  unfold validCoord, inRange.
  rewrite !andb_true_iff, !negb_true_iff. tauto.
Qed.

Lemma pairOf_valid coord x y :
  In (x, y) (pairOf coord) ->
  components coord = (VNum x, VNum y) /\
  validCoord (VNum x) (VNum y) = true.
Proof.
  unfold pairOf, isValid.
  destruct (components coord) as [[| | b | x' | s | xs | ps] lat];
    try (intros []).
  destruct lat as [| | b | y' | s | xs | ps]; try (intros []).
  cbn [fst snd].
  destruct (validCoord (VNum x') (VNum y')) eqn:Hv; [| intros []].
  intros [H | []]. injection H as -> ->. split; [reflexivity | assumption].
Qed.

Lemma validPairs_valid features x y :
  In (x, y) (validPairs features) -> validCoord (VNum x) (VNum y) = true.
Proof.
  unfold validPairs. rewrite in_flat_map. intros (c & _ & Hc).
  apply (pairOf_valid c). assumption.
Qed.

Section ValidPairs.
Variable pairs : list (float * float).
Hypothesis Hvalid :
  forall x y, In (x, y) pairs -> validCoord (VNum x) (VNum y) = true.
Hypothesis Hsome : pairs <> [].

Lemma lats_range y : In y (lats pairs) -> inRange (-90) 90 y.
Proof.
  unfold lats. rewrite in_map_iff. intros ([x y'] & <- & Hin).
  apply Hvalid, validCoord_true in Hin. tauto.
Qed.

Lemma lngs_range x : In x (lngs pairs) -> inRange (-180) 180 x.
Proof.
  unfold lngs. rewrite in_map_iff. intros ([x' y] & <- & Hin).
  apply Hvalid, validCoord_true in Hin. tauto.
Qed.

Lemma lats_some : lats pairs <> [].
Proof. destruct pairs; [congruence | discriminate]. Qed.

Lemma lngs_some : lngs pairs <> [].
Proof. destruct pairs; [congruence | discriminate]. Qed.

Lemma range_below_infinity lo hi x :
  (hi <? infinity) = true -> inRange lo hi x -> (x <? infinity) = true.
Proof. intros Hhi [_ Hx]. exact (leb_ltb_trans _ _ _ Hx Hhi). Qed.

Lemma range_above_neg_infinity lo hi x :
  (neg_infinity <? lo) = true -> inRange lo hi x ->
  (neg_infinity <? x) = true.
Proof. intros Hlo [Hx _]. exact (ltb_leb_trans _ _ _ Hlo Hx). Qed.

Lemma minLat_isMin : isMin (minOf (lats pairs)) (lats pairs).
Proof.
  apply minOf_isMin; [apply lats_some |]. intros y Hy.
  apply (range_below_infinity (-90) 90); [reflexivity |].
  apply lats_range. assumption.
Qed.

Lemma maxLat_isMax : isMax (maxOf (lats pairs)) (lats pairs).
Proof.
  apply maxOf_isMax; [apply lats_some |]. intros y Hy.
  apply (range_above_neg_infinity (-90) 90); [reflexivity |].
  apply lats_range. assumption.
Qed.

Lemma minLng_isMin : isMin (minOf (lngs pairs)) (lngs pairs).
Proof.
  apply minOf_isMin; [apply lngs_some |]. intros y Hy.
  apply (range_below_infinity (-180) 180); [reflexivity |].
  apply lngs_range. assumption.
Qed.

Lemma maxLng_isMax : isMax (maxOf (lngs pairs)) (lngs pairs).
Proof.
  apply maxOf_isMax; [apply lngs_some |]. intros y Hy.
  apply (range_above_neg_infinity (-180) 180); [reflexivity |].
  apply lngs_range. assumption.
Qed.

(** With a valid pair seen, none of the four extrema is still at its
    initial infinity, so the default view is not taken. *)
Lemma noBounds_valid : noBounds (accumulate pairs initAcc) = false.
Proof.
  rewrite accumulate_init. unfold noBounds.
  cbn [hasValidCoords minLat maxLat minLng maxLng].
  destruct minLat_isMin as [H1 _], maxLat_isMax as [H2 _],
    minLng_isMin as [H3 _], maxLng_isMax as [H4 _].
  apply lats_range in H1, H2. apply lngs_range in H3, H4.
  rewrite (ltb_not_eqb _ _
    (range_below_infinity (-90) 90 _ eq_refl H1)).
  rewrite (gtb_not_eqb _ _
    (range_above_neg_infinity (-90) 90 _ eq_refl H2)).
  rewrite (ltb_not_eqb _ _
    (range_below_infinity (-180) 180 _ eq_refl H3)).
  rewrite (gtb_not_eqb _ _
    (range_above_neg_infinity (-180) 180 _ eq_refl H4)).
  destruct pairs; [congruence | reflexivity].
Qed.

Lemma viewOf_valid :
  viewOf (accumulate pairs initAcc)
  = mkView ((minOf (lngs pairs) + maxOf (lngs pairs)) / 2)
           ((minOf (lats pairs) + maxOf (lats pairs)) / 2)
           (zoomFor (spreadOf pairs)).
Proof.
  unfold viewOf. rewrite noBounds_valid. rewrite accumulate_init.
  reflexivity.
Qed.
End ValidPairs.

Lemma calculateBounds_valid features :
  wellFormed features = true ->
  validPairs features <> [] ->
  calculateBounds (VArr features)
  = Normal (Some
      (mkView ((minOf (lngs (validPairs features))
                + maxOf (lngs (validPairs features))) / 2)
              ((minOf (lats (validPairs features))
                + maxOf (lats (validPairs features))) / 2)
              (zoomFor (spreadOf (validPairs features))))).
Proof.
  intros Hwf Hsome.
  rewrite calculateBounds_wellFormed; [| | assumption].
  - rewrite (viewOf_valid _ (validPairs_valid features) Hsome).
    reflexivity.
  - intros ->. apply Hsome. reflexivity.
Qed.

Lemma viewOf_no_pairs : viewOf (accumulate [] initAcc) = defaultView.
Proof. reflexivity. Qed.

Lemma zoomFor_ladder spread : zoomFor spread = firstExceeded ladder spread.
Proof. reflexivity. Qed.

Lemma zoomFor_levels spread :
  In (zoomFor spread) [7; 8; 9; 10; 11; 12; 13; 14]%Z.
Proof.
  unfold zoomFor.
  repeat match goal with
         | |- context [if ?c then _ else _] => destruct c
         end; cbn [In]; tauto.
Qed.

End BoundsFacts.

(** ** The view computed by the react-map-gl version *)

Module MapboxClaims.
Import Spec Mapbox FloatOrderFacts MathFacts ExtremaFacts ScanFacts BoundsFacts.
Local Open Scope float_scope.

(** C1, as stated, fails on the empty sequence: no valid pair is found
    in it, and [calculateBounds] returns [null], not the default view. *)
Lemma empty_sequence_is_null :
  validPairs [] = [] /\
  calculateBounds (VArr []) = Normal None /\
  calculateBounds (VArr []) <> Normal (Some defaultView).
Proof. repeat split. discriminate. Qed.

(** C1, amended: for every well-formed feature sequence in which no
    valid coordinate pair is found, [calculateBounds] returns [null] if
    the sequence is empty and otherwise (features without geometry,
    empty rings, pairs that are all invalid) exactly
    [{ latitude: 32.9750, longitude: -96.7970, zoom: 9 }]. *)
Theorem no_valid_pair_default_view (features : list value) :
  wellFormed features = true ->
  validPairs features = [] ->
  calculateBounds (VArr features)
  = Normal
      match features with
      | [] => None
      | _ :: _ =>
          Some {| longitude := -96.7970; latitude := 32.9750; zoom := 9 |}
      end.
Proof.
  intros Hwf Hnone. destruct features as [| f fs]; [reflexivity |].
  rewrite calculateBounds_wellFormed by (discriminate || assumption).
  rewrite Hnone. reflexivity.
Qed.

Lemma no_valid_pair_default_view_witness :
  calculateBounds
    (VArr [VObj [("type", VStr "Feature")];
           polygon [[point 0 95; VArr [VStr "a"; VNull]; VArr []]]])
  = Normal (Some {| longitude := -96.7970; latitude := 32.9750; zoom := 9 |}).
Proof.
  exact (no_valid_pair_default_view
           [VObj [("type", VStr "Feature")];
            polygon [[point 0 95; VArr [VStr "a"; VNull]; VArr []]]]
           eq_refl eq_refl).
Defined.

(** C2, as stated, fails on the empty sequence: [calculateBounds]
    returns [null] there, not a view. *)
Lemma empty_sequence_no_view :
  calculateBounds (VArr []) = Normal None /\
  ~ (exists view, calculateBounds (VArr []) = Normal (Some view)).
Proof. split; [reflexivity |]. intros [view H]. discriminate H. Qed.

(** C2, amended: on every well-formed feature sequence
    [calculateBounds] throws nothing; it returns [null] on the empty
    sequence and a view record on every other one, including one with
    only invalid coordinates. *)
Theorem well_formed_sequence_never_throws (features : list value) :
  wellFormed features = true ->
  (features = [] /\ calculateBounds (VArr features) = Normal None) \/
  (features <> [] /\
   exists view, calculateBounds (VArr features) = Normal (Some view)).
Proof.
  intros Hwf. destruct features as [| f fs].
  - left. split; reflexivity.
  - right. split; [discriminate |]. eexists.
    apply calculateBounds_wellFormed; [discriminate | assumption].
Qed.

Lemma well_formed_sequence_never_throws_witness :
  exists view,
    calculateBounds (VArr [polygon [[point 200 95; point (-97) 33]]; VNum 1])
    = Normal (Some view).
Proof.
  destruct (well_formed_sequence_never_throws
              [polygon [[point 200 95; point (-97) 33]]; VNum 1] eq_refl)
    as [[Hnil _] | [_ Hview]]; [discriminate Hnil | exact Hview].
Defined.

(** What [calculateBounds] does on each array of features: [null] on
    the empty one, a view on a well-formed one, an exception otherwise. *)
Lemma calculateBounds_outcomes (features : list value) :
  (features = [] /\ calculateBounds (VArr features) = Normal None) \/
  (features <> [] /\ wellFormed features = true /\
   exists view, calculateBounds (VArr features) = Normal (Some view)) \/
  (features <> [] /\ wellFormed features = false /\
   calculateBounds (VArr features) = Throw).
Proof.
  destruct features as [| f fs]; [left; split; reflexivity | right].
  destruct (wellFormed (f :: fs)) eqn:Hwf; [left | right];
    (split; [discriminate | split; [reflexivity |]]).
  - eexists. apply calculateBounds_wellFormed; [discriminate | assumption].
  - apply calculateBounds_not_wellFormed; [discriminate | assumption].
Qed.

(** C4: with at least one valid pair, the center is the midpoint of the
    least and greatest valid latitude and of the least and greatest
    valid longitude, and the zoom is that of the first threshold of the
    descending ladder that the spread strictly exceeds, 14 if none. *)
Theorem view_of_valid_pairs (features : list value) :
  wellFormed features = true ->
  validPairs features <> [] ->
  let pairs := validPairs features in
  let loLat := minOf (lats pairs) in
  let hiLat := maxOf (lats pairs) in
  let loLng := minOf (lngs pairs) in
  let hiLng := maxOf (lngs pairs) in
  let spread := Math_max (hiLat - loLat) (hiLng - loLng) in
  isMin loLat (lats pairs) /\ isMax hiLat (lats pairs) /\
  isMin loLng (lngs pairs) /\ isMax hiLng (lngs pairs) /\
  calculateBounds (VArr features)
  = Normal (Some {| longitude := (loLng + hiLng) / 2;
                    latitude := (loLat + hiLat) / 2;
                    zoom := firstExceeded ladder spread |}).
Proof.
  intros Hwf Hsome. cbv zeta.
  pose proof (validPairs_valid features) as Hvalid.
  split; [apply minLat_isMin; assumption |].
  split; [apply maxLat_isMax; assumption |].
  split; [apply minLng_isMin; assumption |].
  split; [apply maxLng_isMax; assumption |].
  rewrite calculateBounds_valid by assumption. reflexivity.
Qed.

Lemma view_of_valid_pairs_witness :
  calculateBounds
    (VArr [polygon [[point (-97) 32.5; point 0 95; point (-96.5) 33.5]]])
  = Normal (Some {| longitude := -96.75; latitude := 33; zoom := 10 |}).
Proof.
  refine (proj2 (proj2 (proj2 (proj2
    (view_of_valid_pairs
       [polygon [[point (-97) 32.5; point 0 95; point (-96.5) 33.5]]]
       _ _)))));
    [reflexivity | discriminate].
Defined.

Lemma validCoord_validPair lng lat :
  validCoord lng lat = true <-> validPair lng lat.
Proof.
  unfold validPair. split.
  - destruct lng as [| | b | x | s | xs | ps]; try discriminate.
    destruct lat as [| | b | y | s | xs | ps]; try discriminate.
    intros H. pose proof H as H'.
    apply validCoord_true in H'. destruct H' as (_ & _ & Hx & Hy).
    exists x, y. repeat split; try apply Hx; try apply Hy.
    + apply between_infinities_finite.
      * apply (range_above_neg_infinity (-180) 180); [reflexivity | exact Hx].
      * apply (range_below_infinity (-180) 180); [reflexivity | exact Hx].
    + apply between_infinities_finite.
      * apply (range_above_neg_infinity (-90) 90); [reflexivity | exact Hy].
      * apply (range_below_infinity (-90) 90); [reflexivity | exact Hy].
  - intros (x & y & -> & -> & Fx & Fy & Hx & Hy).
    apply validCoord_true. auto using finite_not_nan.
Qed.

Lemma forEachList_app {S : Type} (body : value -> S -> completion S) xs ys :
  forall s,
    forEachList body (xs ++ ys) s
    = bind (forEachList body xs s) (forEachList body ys).
Proof.
  induction xs as [| x xs IH]; intros s; [reflexivity |].
  cbn [app forEachList]. destruct (body x s); [apply IH | reflexivity].
Qed.

Lemma visitCoord_invalid coord a :
  iterable coord = true -> isValid coord = false ->
  visitCoord coord a = Normal a.
Proof.
  intros Hi Hv. rewrite visitCoord_iterable by assumption.
  unfold pairOf. rewrite Hv.
  destruct (components coord) as [[] []]; reflexivity.
Qed.

(** C5: the guard of the assignments holds exactly for the pairs the
    specification calls valid; the loops over well-formed features end
    normally with the extrema of the valid pairs alone; an invalid pair
    can be taken out of its ring without changing the outcome, as in the
    batch with a latitude of 95. *)
Theorem only_valid_pairs_count :
  (forall lng lat, validCoord lng lat = true <-> validPair lng lat) /\
  (forall features a,
     wellFormed features = true ->
     forEachList visitFeature features a
     = Normal (accumulate (validPairs features) a)) /\
  (forall features features',
     features <> [] -> features' <> [] ->
     wellFormed features = true -> wellFormed features' = true ->
     validPairs features = validPairs features' ->
     calculateBounds (VArr features) = calculateBounds (VArr features')) /\
  (forall before coord after a,
     iterable coord = true -> isValid coord = false ->
     visitRing (VArr (before ++ coord :: after)) a
     = visitRing (VArr (before ++ after)) a) /\
  calculateBounds
    (VArr [polygon [[point (-97) 32.5; point (-96.5) 95]];
           polygon [[point (-96) 33.5]]])
  = calculateBounds
      (VArr [polygon [[point (-97) 32.5]]; polygon [[point (-96) 33.5]]]).
Proof.
  split; [exact validCoord_validPair |].
  split; [exact scan_wellFormed |].
  split; [| split; [| reflexivity]].
  - intros fs fs' Hne Hne' Hwf Hwf' Heq.
    rewrite !calculateBounds_wellFormed by assumption.
    rewrite Heq. reflexivity.
  - intros before coord after a Hi Hv.
    unfold visitRing, forEach. rewrite !forEachList_app.
    destruct (forEachList visitCoord before a) as [a' |]; [| reflexivity].
    cbn [bind forEachList].
    rewrite visitCoord_invalid by assumption. reflexivity.
Qed.

Lemma only_valid_pairs_count_witness :
  forEachList visitFeature
    [polygon [[point (-97) 32.5; point (-96.5) 95]]] initAcc
  = Normal (mkAcc 32.5 32.5 (-97) (-97) true).
Proof.
  exact (proj1 (proj2 only_valid_pairs_count)
           [polygon [[point (-97) 32.5; point (-96.5) 95]]] initAcc
           eq_refl).
Defined.

(** C6: the zoom of a returned view is one of 7, 8, ..., 14. *)
Theorem zoom_is_a_ladder_level (features : value) (view : ViewBounds) :
  calculateBounds features = Normal (Some view) ->
  In (zoom view) [7; 8; 9; 10; 11; 12; 13; 14]%Z.
Proof.
  unfold calculateBounds.
  destruct (negb (truthy features) || lengthIsZero features);
    [discriminate |].
  destruct (forEach visitFeature features initAcc) as [a |];
    [| discriminate].
  cbn [bind]. intros H. injection H as <-.
  unfold viewOf. destruct (noBounds a).
  - cbn. tauto.
  - apply zoomFor_levels.
Qed.

Lemma zoom_is_a_ladder_level_witness :
  calculateBounds
    (VArr [polygon [[point (-97) 32.5; point (-96.5) 33.5]]])
  = Normal (Some {| longitude := -96.75; latitude := 33; zoom := 10 |}) /\
  In 10%Z [7; 8; 9; 10; 11; 12; 13; 14]%Z.
Proof.
  split; [reflexivity |].
  exact (zoom_is_a_ladder_level
           (VArr [polygon [[point (-97) 32.5; point (-96.5) 33.5]]])
           {| longitude := -96.75; latitude := 33; zoom := 10 |}
           eq_refl).
Defined.

(** C7: a single feature whose one ring is the point [[-97.0, 33.0]]
    twice is centered on latitude 33.0 and longitude -97.0 at zoom 14. *)
Theorem duplicated_point_ring (props gprops : list (string * value)) :
  lookup "geometry" props = VObj gprops ->
  lookup "coordinates" gprops
  = VArr [VArr [VArr [VNum (-97.0); VNum 33.0];
                VArr [VNum (-97.0); VNum 33.0]]] ->
  calculateBounds (VArr [VObj props])
  = Normal (Some {| longitude := -97.0; latitude := 33.0; zoom := 14 |}).
Proof.
  intros Hg Hc. unfold calculateBounds.
  cbn [truthy negb lengthIsZero orb forEach forEachList].
  unfold visitFeature. cbn [get bind]. rewrite Hg. cbn [truthy get bind].
  rewrite Hc. reflexivity.
Qed.

Lemma duplicated_point_ring_witness :
  calculateBounds (VArr [polygon [[point (-97.0) 33.0; point (-97.0) 33.0]]])
  = Normal (Some {| longitude := -97.0; latitude := 33.0; zoom := 14 |}).
Proof.
  exact (duplicated_point_ring
           [("type", VStr "Feature");
            ("geometry",
             VObj [("type", VStr "Polygon");
                   ("coordinates",
                    VArr [VArr [point (-97.0) 33.0; point (-97.0) 33.0]])])]
           [("type", VStr "Polygon");
            ("coordinates",
             VArr [VArr [point (-97.0) 33.0; point (-97.0) 33.0]])]
           eq_refl eq_refl).
Defined.

Lemma zoomFor_half_to_one spread :
  (0.5 <? spread) = true -> (spread <=? 1) = true -> zoomFor spread = 10%Z.
Proof.
  intros Hlo Hhi. unfold zoomFor.
  rewrite (leb_not_ltb _ _ (leb_trans spread 1 3 Hhi eq_refl)).
  rewrite (leb_not_ltb _ _ (leb_trans spread 1 2 Hhi eq_refl)).
  rewrite (leb_not_ltb _ _ Hhi), Hlo. reflexivity.
Qed.

(** C3, as stated, fails on two features that span exactly 1.0 in
    latitude and 0.4 in longitude: the spread 1.0 does not exceed the
    threshold 1, so the zoom is 10, not 9. *)
Lemma span_one_is_zoom_10 :
  let features := [polygon [[point 0 0]]; polygon [[point 0.4 1.0]]] in
  let pairs := validPairs features in
  maxOf (lats pairs) - minOf (lats pairs) = 1.0 /\
  maxOf (lngs pairs) - minOf (lngs pairs) = 0.4 /\
  calculateBounds (VArr features)
  = Normal (Some {| longitude := 0.2; latitude := 0.5; zoom := 10 |}) /\
  (10 <> 9)%Z.
Proof. cbv zeta. repeat split. discriminate. Qed.

(** C3, amended: when the valid coordinates span exactly 1.0 in latitude
    and 0.4 in longitude the zoom is 10; so it is for every spread
    strictly above 0.5 and at most 1, such as 0.6; a spread of 1.5 gives
    zoom 9. *)
Theorem zoom_by_spread (features : list value) (view : ViewBounds) :
  wellFormed features = true ->
  validPairs features <> [] ->
  calculateBounds (VArr features) = Normal (Some view) ->
  let pairs := validPairs features in
  let latSpan := maxOf (lats pairs) - minOf (lats pairs) in
  let lngSpan := maxOf (lngs pairs) - minOf (lngs pairs) in
  let spread := Math_max latSpan lngSpan in
  (latSpan = 1.0 -> lngSpan = 0.4 -> zoom view = 10%Z) /\
  ((0.5 <? spread) = true -> (spread <=? 1) = true -> zoom view = 10%Z) /\
  (spread = 0.6 -> zoom view = 10%Z) /\
  (spread = 1.5 -> zoom view = 9%Z).
Proof.
  intros Hwf Hsome Hview. cbv zeta.
  assert (Hz : zoom view = zoomFor (spreadOf (validPairs features))).
  { rewrite calculateBounds_valid in Hview by assumption.
    injection Hview as <-. reflexivity. }
  rewrite Hz. unfold spreadOf.
  repeat split.
  - intros -> ->. reflexivity.
  - apply zoomFor_half_to_one.
  - intros ->. reflexivity.
  - intros ->. reflexivity.
Qed.

Lemma zoom_by_spread_witness :
  let features := [polygon [[point 0 0]]; polygon [[point 0.4 0.6]]] in
  let view := {| longitude := 0.2; latitude := 0.3; zoom := 10 |} in
  wellFormed features = true /\
  validPairs features <> [] /\
  calculateBounds (VArr features) = Normal (Some view) /\
  spreadOf (validPairs features) = 0.6 /\
  zoom view = 10%Z.
Proof.
  cbv zeta.
  assert (Hsome : validPairs [polygon [[point 0 0]];
                              polygon [[point 0.4 0.6]]] <> [])
    by discriminate.
  refine (conj eq_refl (conj Hsome (conj eq_refl (conj eq_refl _)))).
  exact (proj1 (proj2 (proj2
           (zoom_by_spread
              [polygon [[point 0 0]]; polygon [[point 0.4 0.6]]]
              {| longitude := 0.2; latitude := 0.3; zoom := 10 |}
              eq_refl Hsome eq_refl)))
           eq_refl).
Defined.

End MapboxClaims.

(** ** Runs of [calculateBounds] *)

Module ImperativeFacts.
Import Mapbox Imperative.

(** A loop whose callback keeps the store in shape [store] and leaves
    the world alone does so too, and follows the pure loop. *)
Lemma each_run (cb : value -> M unit)
    (visit : value -> Acc -> completion Acc) (store : Acc -> env) :
  (forall x a w, exists a',
      cb x (store a) w = (status (visit x a), store a', w)
      /\ ends (visit x a) a') ->
  forall xs a w, exists a',
    each cb xs (store a) w = (status (forEachList visit xs a), store a', w)
    /\ ends (forEachList visit xs a) a'.
Proof.
  intros Hcb xs. induction xs as [| x xs IH]; intros a w.
  - exists a. split; reflexivity.
  - destruct (Hcb x a w) as [a1 [E1 H1]].
    cbn [each forEachList]. rewrite E1.
    destruct (visit x a) as [a2 |]; cbn [status bind].
    + cbn in H1. subst a2. apply IH.
    + exists a1. split; [reflexivity | exact I].
Qed.

Section Runs.
Variable StringToNumber : string -> float.
Variable ObjectToNumber : value -> completion float.
Variable addOther : value -> value -> completion value.

Lemma coordCallback_run ring feature features coord a w :
  exists a',
    callback "coord" (coordCallback StringToNumber ObjectToNumber) coord
      (inRing ring feature features a) w
    = (status (visitCoord coord a), inRing ring feature features a', w)
    /\ ends (visitCoord coord a) a'.
Proof.
  unfold visitCoord.
  destruct (destructure2 coord) as [[lng lat] |] eqn:E.
  - assert (Hskip :
      validCoord lng lat = false ->
      callback "coord" (coordCallback StringToNumber ObjectToNumber) coord
        (inRing ring feature features a) w
      = (Done tt, inRing ring feature features a, w)).
    { destruct a as [a1 a2 a3 a4 a5].
      destruct lng as [| | b | x | s | xs | props];
        try (intros _; cbv -[destructure2 is_nan Math_min Math_max];
             rewrite E; reflexivity).
      destruct lat as [| | b | y | s | xs | props];
        try (intros _; cbv -[destructure2 is_nan Math_min Math_max];
             rewrite E; reflexivity).
      cbv -[destructure2 is_nan Math_min Math_max]. rewrite E.
      destruct (is_nan x); [reflexivity |].
      destruct (is_nan y); [reflexivity |].
      destruct (-180 <=? x)%float; [| reflexivity].
      destruct (x <=? 180)%float; [| reflexivity].
      destruct (-90 <=? y)%float; [| reflexivity].
      destruct (y <=? 90)%float; [discriminate | reflexivity]. }
    destruct lng as [| | b | x | s | xs | props];
      try (exists a; split; [apply Hskip |]; reflexivity).
    destruct lat as [| | b | y | s | xs | props];
      try (exists a; split; [apply Hskip |]; reflexivity).
    cbn [bind]. destruct (validCoord (VNum x) (VNum y)) eqn:V.
    + exists (extend a x y). split; [| reflexivity].
      destruct a as [a1 a2 a3 a4 a5]. revert V.
      cbv -[destructure2 is_nan Math_min Math_max]. rewrite E.
      destruct (is_nan x); [discriminate |].
      destruct (is_nan y); [discriminate |].
      destruct (-180 <=? x)%float; [| discriminate].
      destruct (x <=? 180)%float; [| discriminate].
      destruct (-90 <=? y)%float; [| discriminate].
      destruct (y <=? 90)%float; [reflexivity | discriminate].
    + exists a. split; [apply Hskip |]; reflexivity.
  - exists a. split; [| exact I].
    destruct a as [a1 a2 a3 a4 a5].
    cbv -[destructure2 is_nan Math_min Math_max]. rewrite E. reflexivity.
Qed.

Lemma ringCallback_run feature features ring a w :
  exists a',
    callback "ring" (ringCallback StringToNumber ObjectToNumber) ring
      (inFeature feature features a) w
    = (status (visitRing ring a), inFeature feature features a', w)
    /\ ends (visitRing ring a) a'.
Proof.
  destruct ring as [| | b | x | s | xs | props];
    try (exists a; split; [reflexivity | exact I]).
  destruct (each_run _ _ _
              (coordCallback_run (VArr xs) feature features) xs a w)
    as [a' [E H]].
  exists a'. split; [| exact H].
  unfold visitRing, JS.forEach.
  unfold callback at 1. unfold ringCallback, forEach, block, andThen, declare, read.
  cbn [find String.eqb Ascii.eqb Bool.eqb].
  change (("ring", VArr xs) :: inFeature feature features a)
    with (inRing (VArr xs) feature features a).
  rewrite E. reflexivity.
Qed.

Lemma featureCallback_run features feature a w :
  exists a',
    callback "feature" (featureCallback StringToNumber ObjectToNumber) feature
      (declared features a) w
    = (status (visitFeature feature a), declared features a', w)
    /\ ends (visitFeature feature a) a'.
Proof.
  unfold visitFeature.
  destruct (get feature "geometry") as [geometry |] eqn:G.
  - cbn [bind]. destruct (truthy geometry) eqn:TG.
    + destruct (get geometry "coordinates") as [coordinates |] eqn:C.
      * cbn [bind]. destruct (truthy coordinates) eqn:TC.
        -- destruct coordinates as [| | b | x | s | xs | props];
             try discriminate TC;
             try (exists a; split; [| exact I];
                  destruct a as [a1 a2 a3 a4 a5];
                  repeat (progress (cbv -[get truthy];
                                    rewrite ?G, ?TG, ?C, ?TC));
                  reflexivity).
           destruct (each_run _ _ _ (ringCallback_run feature features)
                       xs a w) as [a' [E H]].
           exists a'. split; [| exact H].
           unfold JS.forEach. unfold callback at 1.
           destruct a as [a1 a2 a3 a4 a5], a' as [b1 b2 b3 b4 b5].
           cbv -[each callback ringCallback forEachList visitRing status]
             in E.
           repeat (progress
             (cbv -[get truthy each callback ringCallback forEachList
                    visitRing status];
              rewrite ?G, ?TG, ?C, ?TC, ?E)).
           destruct (forEachList visitRing xs _); reflexivity.
        -- exists a. split; [| reflexivity].
           destruct a as [a1 a2 a3 a4 a5].
           repeat (progress (cbv -[get truthy]; rewrite ?G, ?TG, ?C, ?TC)).
           reflexivity.
      * exists a. split; [| exact I]. 
           destruct a as [a1 a2 a3 a4 a5].
           repeat (progress (cbv -[get truthy]; rewrite ?G, ?TG, ?C, ?TC)).
           reflexivity.
    + exists a. split; [| reflexivity].
           destruct a as [a1 a2 a3 a4 a5].
           repeat (progress (cbv -[get truthy]; rewrite ?G, ?TG, ?C, ?TC)).
           reflexivity.
  - exists a. split; [| exact I].
           destruct a as [a1 a2 a3 a4 a5].
           repeat (progress (cbv -[get truthy]; rewrite ?G, ?TG, ?C, ?TC)).
           reflexivity.
Qed.

Ltac run :=
  cbv -[each callback featureCallback forEachList visitFeature status
        Math_max Math_min is_nan is_zero JS.lookup strictEqZero
        infinity neg_infinity].

Ltac run_in E :=
  cbv -[each callback featureCallback forEachList visitFeature status
        Math_max Math_min is_nan is_zero JS.lookup strictEqZero
        infinity neg_infinity] in E.

(** The call leaves the world as it found it, and returns what
    [Mapbox.calculateBounds] computes from the argument. *)
Lemma calculateBounds_run features w :
  Imperative.calculateBounds StringToNumber ObjectToNumber addOther
    features w
  = (resultOf (Mapbox.calculateBounds features), w).
Proof.
  unfold Imperative.calculateBounds, call, Mapbox.calculateBounds, body.
  destruct features as [| | b | x | s | xs | props].
  - reflexivity.
  - reflexivity.
  - destruct b; reflexivity.
  - run. destruct (is_nan x); [reflexivity |].
    destruct (is_zero x); reflexivity.
  - destruct s; reflexivity.
  - destruct xs as [| x xs]; [reflexivity |].
    destruct (each_run _ _ _ (featureCallback_run (VArr (x :: xs)))
                (x :: xs) initAcc w) as [a' [E H]].
    destruct a' as [b1 b2 b3 b4 b5].
    run_in E. run. rewrite E.
    destruct (forEachList visitFeature (x :: xs) _) as [a |];
      [| reflexivity].
    cbn in H. subst a. unfold status.
    destruct b5; [| reflexivity].
    run.
    destruct (b1 =? infinity)%float; [reflexivity |].
    destruct (b2 =? neg_infinity)%float; [reflexivity |].
    destruct (b3 =? infinity)%float; [reflexivity |].
    destruct (b4 =? neg_infinity)%float; [reflexivity |].
    set (maxDiff := Math_max (b2 - b1) (b4 - b3)).
    destruct (3 <? maxDiff)%float; [reflexivity |].
    destruct (2 <? maxDiff)%float; [reflexivity |].
    destruct (1 <? maxDiff)%float; [reflexivity |].
    destruct (0.5 <? maxDiff)%float; [reflexivity |].
    destruct (0.2 <? maxDiff)%float; [reflexivity |].
    destruct (0.1 <? maxDiff)%float; [reflexivity |].
    destruct (0.05 <? maxDiff)%float; reflexivity.
  - run. destruct (strictEqZero (JS.lookup "length" props)); reflexivity.
Qed.

(** C8: a call of [calculateBounds] neither reads nor writes anything
    outside its argument and its own variables: run in any two worlds
    (outer variables, console) on the same features it returns the same
    completion, it hands the world back unchanged, and so a second call
    made right after the first returns what the first returned. *)
Theorem calculateBounds_is_pure (features : value) (w1 w2 : World) :
  fst (Imperative.calculateBounds StringToNumber ObjectToNumber addOther
         features w1)
  = fst (Imperative.calculateBounds StringToNumber ObjectToNumber addOther
           features w2)
  /\ snd (Imperative.calculateBounds StringToNumber ObjectToNumber addOther
            features w1) = w1
  /\ fst (Imperative.calculateBounds StringToNumber ObjectToNumber addOther
            features
            (snd (Imperative.calculateBounds StringToNumber ObjectToNumber
                    addOther features w1)))
     = fst (Imperative.calculateBounds StringToNumber ObjectToNumber addOther
              features w1).
Proof.
  rewrite !calculateBounds_run. cbn [fst snd].
  rewrite ?calculateBounds_run. repeat split.
Qed.

End Runs.

(** Not every statement of the dashboard is like that.  The handler's
    [console.log('Calculated map view:', mapView)] leaves a line on the
    console. *)
Lemma logMapView_is_seen s w mapView :
  find "mapView" s = Some mapView ->
  logMapView s w
  = (Done tt, s,
     mkWorld (outer w)
       (console w ++ [[VStr "Calculated map view:"; mapView]]))
  /\ snd (logMapView s w) <> w.
Proof.
  intros F.
  assert (E : logMapView s w
              = (Done tt, s,
                 mkWorld (outer w)
                   (console w ++ [[VStr "Calculated map view:"; mapView]]))).
  { unfold logMapView, andThen, read, log. rewrite F. reflexivity. }
  split; [exact E |].
  rewrite E. cbn [snd]. intros Heq.
  apply (f_equal (fun w' => List.length (console w'))) in Heq.
  cbn [console] in Heq. rewrite length_app in Heq. cbn in Heq. lia.
Qed.

(** And an assignment to a name the call has not declared goes to the
    variable of the enclosing scope. *)
Lemma assign_undeclared_writes_outer x v s w o :
  replace x v s = None ->
  replace x v (outer w) = Some o ->
  assign x v s w = (Done tt, s, mkWorld o (console w)).
Proof.
  intros Hs Ho. unfold assign. rewrite Hs, Ho. reflexivity.
Qed.

End ImperativeFacts.

(** ** The GeoJSON handler *)

Module DashboardClaims.
Import Spec Dashboard.

Lemma timestamped_hasTimestamp feature :
  timestamped feature = true <-> hasTimestamp feature.
Proof.
  unfold timestamped, hasTimestamp. split.
  - destruct feature as [| | b | x | s | xs | props]; try discriminate.
    destruct (lookup "properties" props) as [| | b | x | s | xs | pprops] eqn:Hp;
      try discriminate.
    intros H. exists props, pprops. auto.
  - intros (props & pprops & -> & Hp & Ht). rewrite Hp. exact Ht.
Qed.

Lemma hasLastEdited_present feature :
  present feature ->
  exists v, hasLastEdited feature = Normal v /\ truthy v = timestamped feature.
Proof.
  intros [Hu Hn]. unfold hasLastEdited, timestamped.
  destruct feature as [| | b | x | s | xs | props]; try congruence;
    cbn [get bind truthy]; try (eexists; split; reflexivity).
  destruct (lookup "properties" props) as [| | b | x | s | xs | pprops];
    cbn [truthy get bind];
    try (eexists; split; reflexivity);
    match goal with
    | |- context [if ?c then _ else _] =>
        destruct c eqn:Hc; cbn [get]; eexists; split;
        try reflexivity; cbn [truthy]; try assumption; reflexivity
    end.
Qed.

Lemma filterList_present features :
  (forall f, In f features -> present f) ->
  filterList hasLastEdited features
  = Normal (List.filter timestamped features).
Proof.
  induction features as [| f fs IH]; intros Hp; [reflexivity |].
  cbn [filterList List.filter].
  destruct (hasLastEdited_present f (Hp f (or_introl eq_refl)))
    as (v & Hv & Ht).
  rewrite Hv. cbn [bind].
  rewrite IH by (intros g Hg; apply Hp; right; assumption).
  cbn [bind]. rewrite Ht. reflexivity.
Qed.

Section AnyVersion.
Variable View : Type.
Variable calculateBounds : value -> completion (option View).

Lemma loadGeoJson_present data features :
  get data "features" = Normal (VArr features) ->
  (forall f, In f features -> present f) ->
  loadGeoJson View calculateBounds data
  = bind (calculateBounds (VArr (List.filter timestamped features)))
      (fun view =>
         Normal (withFeatures data
                   (VArr (List.filter timestamped features)), view)).
Proof.
  intros Hf Hp. unfold loadGeoJson. rewrite Hf. cbn [bind filter].
  rewrite filterList_present by assumption. reflexivity.
Qed.

Lemma mapView_present data features st :
  get data "features" = Normal (VArr features) ->
  (forall f, In f features -> present f) ->
  mapView (onGeoJson View calculateBounds data st)
  = match calculateBounds (VArr (List.filter timestamped features)) with
    | Normal (Some view) => view
    | _ => mapView st
    end.
Proof.
  intros Hf Hp. unfold onGeoJson.
  rewrite (loadGeoJson_present data features Hf Hp).
  destruct (calculateBounds _) as [[view |] |]; reflexivity.
Qed.
End AnyVersion.

(** C9: in either version the handler keeps exactly the features whose
    [properties] object has a truthy [last_edited], in their order,
    hands that array to [calculateBounds] and stores it as the features
    of [geoJsonData]; the view it sets is the same for any other file
    with the same kept features, so the features without [last_edited]
    do not bear on it. *)
Theorem features_filtered_by_last_edited
  (View : Type) (calculateBounds : value -> completion (option View))
  (data : value) (features : list value) (st : State View) :
  get data "features" = Normal (VArr features) ->
  (forall f, In f features -> present f) ->
  let kept := List.filter timestamped features in
  (forall f, In f kept <-> In f features /\ hasTimestamp f) /\
  loadGeoJson View calculateBounds data
  = bind (calculateBounds (VArr kept))
      (fun view => Normal (withFeatures data (VArr kept), view)) /\
  mapView (onGeoJson View calculateBounds data st)
  = match calculateBounds (VArr kept) with
    | Normal (Some view) => view
    | _ => mapView st
    end /\
  (forall data' features',
     get data' "features" = Normal (VArr features') ->
     (forall f, In f features' -> present f) ->
     List.filter timestamped features' = kept ->
     mapView (onGeoJson View calculateBounds data' st)
     = mapView (onGeoJson View calculateBounds data st)).
Proof.
  intros Hf Hp. cbv zeta.
  split; [| split; [| split]].
  - intros f. rewrite filter_In, timestamped_hasTimestamp. tauto.
  - apply loadGeoJson_present; assumption.
  - apply mapView_present; assumption.
  - intros data' features' Hf' Hp' Hsame.
    rewrite (mapView_present _ _ data' features' st Hf' Hp').
    rewrite (mapView_present _ _ data features st Hf Hp).
    rewrite Hsame. reflexivity.
Qed.

Lemma features_filtered_by_last_edited_witness :
  let features :=
    [city "Plano" (VStr "2024-05-01") [[point (-97) 32.5; point (-96.5) 33.5]];
     city "Allen" VNull [[point (-90) 40]]] in
  mapView (onGeoJson _ Mapbox.calculateBounds (collection features)
             (mkState Mapbox.initialMapView None))
  = Mapbox.mkView (-96.75) 33 10.
Proof.
  cbv zeta.
  refine (proj1 (proj2 (proj2
    (features_filtered_by_last_edited _ Mapbox.calculateBounds
       (collection _) _ (mkState Mapbox.initialMapView None) eq_refl _)))).
  intros f [<- | [<- | []]]; split; discriminate.
Defined.

End DashboardClaims.

(** ** The two versions of [calculateBounds] *)

Module VersionsClaims.
Import Spec FloatOrderFacts ScanFacts BoundsFacts.
Local Open Scope float_scope.

Lemma accumulateLeaflet_app l1 l2 a :
  accumulateLeaflet (l1 ++ l2) a
  = accumulateLeaflet l2 (accumulateLeaflet l1 a).
Proof. apply fold_left_app. Qed.

Lemma accumulateLeaflet_fields pairs :
  forall a,
    accumulateLeaflet pairs a
    = Leaflet.mkAcc (fold_left Math_min (lats pairs) (Leaflet.minLat a))
                    (fold_left Math_max (lats pairs) (Leaflet.maxLat a))
                    (fold_left Math_min (lngs pairs) (Leaflet.minLng a))
                    (fold_left Math_max (lngs pairs) (Leaflet.maxLng a)).
Proof.
  induction pairs as [| [x y] pairs IH]; intros a.
  - destruct a; reflexivity.
  - unfold accumulateLeaflet in *. cbn [fold_left lats lngs map fst snd].
    rewrite IH. reflexivity.
Qed.

Section Leaflet.
Variable StringToNumber : string -> float.
Variable ObjectToNumber : value -> completion float.

Lemma leaflet_loop (body : value -> Leaflet.Acc -> completion Leaflet.Acc)
  (found : value -> list (float * float)) xs :
  (forall x, In x xs ->
     forall a, body x a = Normal (accumulateLeaflet (found x) a)) ->
  forall a,
    forEachList body xs a
    = Normal (accumulateLeaflet (flat_map found xs) a).
Proof.
  induction xs as [| x xs IH]; intros Hbody a; [reflexivity |].
  cbn [forEachList flat_map].
  rewrite (Hbody x (or_introl eq_refl)). cbn [bind].
  rewrite accumulateLeaflet_app. apply IH.
  intros z Hz. apply Hbody. right. assumption.
Qed.

Lemma leaflet_visitCoord coord a :
  isValid coord = true ->
  Leaflet.visitCoord StringToNumber ObjectToNumber coord a
  = Normal (accumulateLeaflet (pairOf coord) a).
Proof.
  unfold Leaflet.visitCoord, pairOf. intros Hv. rewrite Hv.
  unfold isValid in Hv.
  destruct coord as [| | b | z | s | xs | ps];
    cbn [components fst snd] in *; try discriminate Hv.
  - unfold strItem in Hv.
    destruct (String.get 0 s), (String.get 1 s); discriminate Hv.
  - cbn [destructure2 bind fst snd].
    destruct (nth 0 xs VUndefined), (nth 1 xs VUndefined);
      try discriminate Hv.
    reflexivity.
Qed.

Lemma leaflet_visitRing ring a :
  ringShape ring = true ->
  (forall c, In c (entriesOf ring) -> isValid c = true) ->
  Leaflet.visitRing StringToNumber ObjectToNumber ring a
  = Normal (accumulateLeaflet (pairsOfRing ring) a).
Proof.
  destruct ring; try discriminate. intros _ Hv.
  unfold Leaflet.visitRing, forEach, pairsOfRing.
  cbn [entriesOf] in *.
  apply leaflet_loop. intros c Hc a'. apply leaflet_visitCoord, Hv, Hc.
Qed.

Lemma leaflet_visitFeature feature a :
  featureShape feature = true ->
  (forall r c, In r (ringsOf feature) -> In c (entriesOf r) ->
     isValid c = true) ->
  Leaflet.visitFeature StringToNumber ObjectToNumber feature a
  = Normal (accumulateLeaflet (pairsOfFeature feature) a).
Proof.
  unfold featureShape, Leaflet.visitFeature, pairsOfFeature,
    ringsOf, coordinatesOf.
  destruct feature as [| | b | x | s | xs | props]; try discriminate;
    try reflexivity.
  cbn [get bind].
  destruct (lookup "geometry" props) as [| | b | x | s | xs | gprops];
    cbn [truthy get bind];
    try reflexivity;
    try match goal with
        | |- context [if ?c then _ else _] => destruct c; reflexivity
        end.
  destruct (truthy (lookup "coordinates" gprops)); [| reflexivity].
  destruct (lookup "coordinates" gprops)
    as [| | b | x | s | rings | cprops]; try discriminate.
  intros Hs Hv. unfold forEach. rewrite flat_map_nested.
  apply leaflet_loop. intros r Hr a'.
  apply leaflet_visitRing.
  - rewrite forallb_forall in Hs. apply Hs. assumption.
  - intros c Hc. exact (Hv r c Hr Hc).
Qed.

Lemma leaflet_scan features a :
  wellFormed features = true ->
  (forall c, In c (coordsOf features) -> isValid c = true) ->
  forEachList (Leaflet.visitFeature StringToNumber ObjectToNumber)
    features a
  = Normal (accumulateLeaflet (validPairs features) a).
Proof.
  intros Hwf Hv. rewrite validPairs_features.
  apply leaflet_loop. intros f Hf a'.
  apply leaflet_visitFeature.
  - unfold wellFormed in Hwf. rewrite forallb_forall in Hwf.
    apply Hwf. assumption.
  - intros r c Hr Hc. apply Hv. unfold coordsOf.
    apply in_flat_map. exists f. split; [assumption |].
    apply in_flat_map. exists r. split; assumption.
Qed.

Lemma leaflet_calculateBounds features :
  features <> [] ->
  wellFormed features = true ->
  (forall c, In c (coordsOf features) -> isValid c = true) ->
  Leaflet.calculateBounds StringToNumber ObjectToNumber (VArr features)
  = Normal (Some (Leaflet.viewOf
                    (accumulateLeaflet (validPairs features)
                       Leaflet.initAcc))).
Proof.
  intros Hne Hwf Hv. destruct features as [| f fs]; [congruence |].
  unfold Leaflet.calculateBounds.
  cbn [truthy negb lengthIsZero orb forEach].
  rewrite leaflet_scan by assumption. reflexivity.
Qed.
End Leaflet.

Lemma all_valid_pairs coords :
  (forall c, In c coords -> isValid c = true) ->
  coords <> [] -> flat_map pairOf coords <> [].
Proof.
  destruct coords as [| c rest]; [congruence |]. intros Hv _.
  specialize (Hv c (or_introl eq_refl)).
  cbn [flat_map]. unfold pairOf. rewrite Hv.
  unfold isValid in Hv.
  destruct (components c) as [lng lat]. cbn [fst snd] in Hv.
  destruct lng, lat; try discriminate Hv. discriminate.
Qed.

(** C10, as stated, fails on a feature sequence without any coordinate
    pair, such as one feature with a [null] geometry: the earlier
    version computes a [NaN] center at zoom 14, the later one returns
    its default view at zoom 9. *)
Lemma versions_differ_without_pairs :
  let features := [VObj [("type", VStr "Feature"); ("geometry", VNull)]] in
  coordsOf features = [] /\
  (fun StringToNumber ObjectToNumber =>
     Leaflet.calculateBounds StringToNumber ObjectToNumber (VArr features))
  = (fun _ _ => Normal (Some (Leaflet.mkView (nan, nan) 14))) /\
  Mapbox.calculateBounds (VArr features)
  = Normal (Some (Mapbox.mkView (-96.7970) 32.9750 9)).
Proof. cbv zeta. repeat split. Qed.

(** C10, amended: on every well-formed feature sequence that has at
    least one coordinate pair and whose coordinate pairs are all valid,
    the two versions compute the same center latitude, the same center
    longitude and the same zoom. *)
Theorem versions_agree_on_valid_pairs
  (StringToNumber : string -> float)
  (ObjectToNumber : value -> completion float)
  (features : list value) :
  wellFormed features = true ->
  coordsOf features <> [] ->
  (forall c, In c (coordsOf features) -> isValid c = true) ->
  exists early late,
    Leaflet.calculateBounds StringToNumber ObjectToNumber (VArr features)
    = Normal (Some early) /\
    Mapbox.calculateBounds (VArr features) = Normal (Some late) /\
    Leaflet.center early = (Mapbox.latitude late, Mapbox.longitude late) /\
    Leaflet.zoom early = Mapbox.zoom late.
Proof.
  intros Hwf Hsome Hvalid.
  assert (Hne : features <> []) by (intros ->; apply Hsome; reflexivity).
  assert (Hpairs : validPairs features <> [])
    by (apply all_valid_pairs; assumption).
  eexists. eexists.
  split; [apply leaflet_calculateBounds; assumption |].
  split; [apply calculateBounds_wellFormed; assumption |].
  rewrite (viewOf_valid _ (validPairs_valid features) Hpairs).
  unfold Leaflet.viewOf. rewrite accumulateLeaflet_fields.
  split; reflexivity.
Qed.

Lemma versions_agree_on_valid_pairs_witness :
  exists early late,
    Leaflet.calculateBounds (fun _ => nan) (fun _ => Throw)
      (VArr [polygon [[point (-97) 32.5]]; polygon [[point (-96.5) 33.5]]])
    = Normal (Some early) /\
    Mapbox.calculateBounds
      (VArr [polygon [[point (-97) 32.5]]; polygon [[point (-96.5) 33.5]]])
    = Normal (Some late) /\
    Leaflet.center early = (Mapbox.latitude late, Mapbox.longitude late) /\
    Leaflet.zoom early = Mapbox.zoom late.
Proof.
  apply versions_agree_on_valid_pairs.
  - reflexivity.
  - discriminate.
  - intros c [<- | [<- | []]]; reflexivity.
Defined.

End VersionsClaims.

(** ** More on the react-map-gl [calculateBounds] *)

Module MapboxMore.
Import Spec Shapes Mapbox.
Import FloatOrderFacts MathFacts ExtremaFacts ScanFacts BoundsFacts.
Local Open Scope float_scope.

(** X1: on an array, [calculateBounds] throws exactly when the array is
    not empty and one of its features is malformed: a [null] entry,
    coordinates that are not an array, a ring that is not an array, or
    a ring entry that cannot be destructured. *)
Theorem throws_iff_malformed (features : list value) :
  calculateBounds (VArr features) = Throw
  <-> features <> [] /\ wellFormed features = false.
Proof.
  split.
  - intros H. destruct features as [| f fs]; [discriminate H |].
    split; [discriminate |].
    destruct (wellFormed (f :: fs)) eqn:Hwf; [| reflexivity].
    rewrite calculateBounds_wellFormed in H by (discriminate || assumption).
    discriminate H.
  - intros [Hne Hwf]. apply calculateBounds_not_wellFormed; assumption.
Qed.

(** X2: after the loops over well-formed features, [hasValidCoords] is
    set exactly when a valid pair was found, and the default view is
    taken exactly when it is not set: the four comparisons with
    [Infinity] never decide on their own. *)
Theorem default_view_iff_no_valid_pair (features : list value) (a : Acc) :
  wellFormed features = true ->
  forEachList visitFeature features initAcc = Normal a ->
  (hasValidCoords a = true <-> validPairs features <> []) /\
  noBounds a = negb (hasValidCoords a).
Proof.
  intros Hwf Hrun. rewrite scan_wellFormed in Hrun by assumption.
  injection Hrun as <-.
  destruct (validPairs features) as [| p ps] eqn:Hp.
  - split; [| reflexivity]. cbn. split; [discriminate | congruence].
  - assert (Hsome : validPairs features <> []) by (rewrite Hp; discriminate).
    pose proof (noBounds_valid _ (validPairs_valid features) Hsome) as Hn.
    rewrite Hp in Hn. rewrite Hn. rewrite accumulate_init.
    cbn [hasValidCoords negb]. split; [| reflexivity].
    split; [discriminate | reflexivity].
Qed.

Lemma default_view_iff_no_valid_pair_witness :
  (true = true <-> validPairs [polygon [[point (-97) 33; point 0 95]]] <> [])
  /\ noBounds (mkAcc 33 33 (-97) (-97) true) = negb true.
Proof.
  exact (default_view_iff_no_valid_pair
           [polygon [[point (-97) 33; point 0 95]]]
           (mkAcc 33 33 (-97) (-97) true) eq_refl eq_refl).
Defined.

Lemma multiPolygon_shape polygons : featureShape (multiPolygon polygons) = true.
Proof.
  unfold featureShape, multiPolygon, coordinatesOf. cbn [lookup String.eqb].
  cbn. rewrite forallb_forall. intros r Hr.
  apply in_map_iff in Hr. destruct Hr as (rings & <- & _).
  cbn [ringShape]. rewrite forallb_forall. intros c Hc.
  apply in_map_iff in Hc. destruct Hc as (ring & <- & _). reflexivity.
Qed.

Lemma multiPolygon_no_pair polygons : pairsOfFeature (multiPolygon polygons) = [].
Proof.
  unfold pairsOfFeature, ringsOf, multiPolygon, coordinatesOf. cbn.
  rewrite flat_map_nested.
  induction polygons as [| rings polygons IH]; [reflexivity |].
  cbn [map flat_map]. rewrite IH, app_nil_r. clear IH.
  cbn [entriesOf].
  induction rings as [| ring rings IH]; [reflexivity |].
  cbn [map flat_map]. rewrite IH, app_nil_r.
  unfold pairOf. cbn [components].
  destruct ring as [| p [| q ring]]; reflexivity.
Qed.

(** X3: [MultiPolygon] features do not count: their ring entries are
    rings, not positions, so no pair is valid, and a non-empty sequence
    of such features gets the default view whatever their positions. *)
Theorem multiPolygons_get_default_view (features : list value) :
  features <> [] ->
  (forall f, In f features -> exists polygons, f = multiPolygon polygons) ->
  calculateBounds (VArr features) = Normal (Some defaultView).
Proof.
  intros Hne Hall.
  assert (Hwf : wellFormed features = true).
  { unfold wellFormed. rewrite forallb_forall. intros f Hf.
    destruct (Hall f Hf) as [polygons ->]. apply multiPolygon_shape. }
  assert (Hnone : validPairs features = []).
  { rewrite validPairs_features. clear Hne Hwf.
    induction features as [| f fs IH]; [reflexivity |].
    cbn [flat_map].
    destruct (Hall f (or_introl eq_refl)) as [polygons ->].
    rewrite multiPolygon_no_pair. cbn [app].
    apply IH. intros g Hg. apply Hall. right. assumption. }
  rewrite calculateBounds_wellFormed by assumption.
  rewrite Hnone. reflexivity.
Qed.

Lemma multiPolygons_get_default_view_witness :
  calculateBounds
    (VArr [multiPolygon [[[(-97, 32.5); (-96.5, 33.5); (-97, 32.5)]];
                         [[(-96, 33); (-95.5, 33.2); (-96, 33)]]]])
  = Normal (Some defaultView).
Proof.
  apply multiPolygons_get_default_view; [discriminate |].
  intros f [<- | []]. eexists. reflexivity.
Defined.

End MapboxMore.

(** ** The zoom ladder *)

Module ZoomLadder.
Import Mapbox FloatOrderFacts.
Local Open Scope float_scope.

Ltac exceeded_too s s' Hle :=
  repeat match goal with
         | |- context [(?t <? s)] =>
             let H := fresh "H" in
             destruct (t <? s) eqn:H;
             [ rewrite (ltb_leb_trans t s s' H Hle) | ]
         end.

(** X4: a larger spread never gives a closer zoom. *)
Theorem larger_spread_wider_zoom (spread spread' : float) :
  (spread <=? spread') = true ->
  (zoomFor spread' <= zoomFor spread)%Z.
Proof.
  intros Hle. unfold zoomFor. exceeded_too spread spread' Hle;
    repeat match goal with
           | |- context [if ?c then _ else _] => destruct c
           end; lia.
Qed.

Lemma larger_spread_wider_zoom_witness :
  (zoomFor 1.5 <= zoomFor 0.6)%Z.
Proof. exact (larger_spread_wider_zoom 0.6 1.5 eq_refl). Defined.

Ltac clash :=
  match goal with
  | Hi : (?t <? ?s) = true, B : (?s <=? ?u) = true |- _ =>
      let C := fresh "C" in
      pose proof (ltb_leb_trans _ _ _ Hi B) as C;
      vm_compute in C; discriminate C
  end.

Ltac settle :=
  repeat split; intros;
  repeat match goal with
         | H : _ /\ _ |- _ => destruct H
         end;
  try discriminate; try reflexivity; try assumption; try clash.

(** X5: each zoom level belongs to one interval of spreads, open below
    and closed above: 7 above 3, 8 in (2, 3], 9 in (1, 2], 10 in
    (0.5, 1], 11 in (0.2, 0.5], 12 in (0.1, 0.2], 13 in (0.05, 0.1],
    and 14 for everything else, a spread that is not a number
    included. *)
Theorem zoom_intervals (spread : float) :
  (zoomFor spread = 7%Z <-> (3 <? spread) = true) /\
  (zoomFor spread = 8%Z
   <-> (2 <? spread) = true /\ (spread <=? 3) = true) /\
  (zoomFor spread = 9%Z
   <-> (1 <? spread) = true /\ (spread <=? 2) = true) /\
  (zoomFor spread = 10%Z
   <-> (0.5 <? spread) = true /\ (spread <=? 1) = true) /\
  (zoomFor spread = 11%Z
   <-> (0.2 <? spread) = true /\ (spread <=? 0.5) = true) /\
  (zoomFor spread = 12%Z
   <-> (0.1 <? spread) = true /\ (spread <=? 0.2) = true) /\
  (zoomFor spread = 13%Z
   <-> (0.05 <? spread) = true /\ (spread <=? 0.1) = true) /\
  (zoomFor spread = 14%Z <-> (0.05 <? spread) = false).
Proof.
  assert (Hnum : forall t, (t <? spread) = true -> is_nan spread = false)
    by (intros t H; to_keys; tauto).
  assert (Hup : forall t, is_nan t = false ->
                (t <? spread) = false -> is_nan spread = false ->
                (spread <=? t) = true)
    by (intros t Ht H Hs; apply not_ltb_leb; assumption).
  unfold zoomFor.
  destruct (3 <? spread) eqn:H3.
  { rewrite (ltb_leb_trans 2 3 spread eq_refl (ltb_leb _ _ H3)).
    rewrite (ltb_leb_trans 1 3 spread eq_refl (ltb_leb _ _ H3)).
    rewrite (ltb_leb_trans 0.5 3 spread eq_refl (ltb_leb _ _ H3)).
    rewrite (ltb_leb_trans 0.2 3 spread eq_refl (ltb_leb _ _ H3)).
    rewrite (ltb_leb_trans 0.1 3 spread eq_refl (ltb_leb _ _ H3)).
    rewrite (ltb_leb_trans 0.05 3 spread eq_refl (ltb_leb _ _ H3)).
    settle. }
  destruct (2 <? spread) eqn:H2.
  { pose proof (Hup 3 eq_refl H3 (Hnum _ H2)) as L3.
    rewrite (ltb_leb_trans 1 2 spread eq_refl (ltb_leb _ _ H2)).
    rewrite (ltb_leb_trans 0.5 2 spread eq_refl (ltb_leb _ _ H2)).
    rewrite (ltb_leb_trans 0.2 2 spread eq_refl (ltb_leb _ _ H2)).
    rewrite (ltb_leb_trans 0.1 2 spread eq_refl (ltb_leb _ _ H2)).
    rewrite (ltb_leb_trans 0.05 2 spread eq_refl (ltb_leb _ _ H2)).
    settle. }
  destruct (1 <? spread) eqn:H1.
  { pose proof (Hup 2 eq_refl H2 (Hnum _ H1)) as L2.
    rewrite (ltb_leb_trans 0.5 1 spread eq_refl (ltb_leb _ _ H1)).
    rewrite (ltb_leb_trans 0.2 1 spread eq_refl (ltb_leb _ _ H1)).
    rewrite (ltb_leb_trans 0.1 1 spread eq_refl (ltb_leb _ _ H1)).
    rewrite (ltb_leb_trans 0.05 1 spread eq_refl (ltb_leb _ _ H1)).
    settle. }
  destruct (0.5 <? spread) eqn:H05.
  { pose proof (Hup 1 eq_refl H1 (Hnum _ H05)) as L1.
    rewrite (ltb_leb_trans 0.2 0.5 spread eq_refl (ltb_leb _ _ H05)).
    rewrite (ltb_leb_trans 0.1 0.5 spread eq_refl (ltb_leb _ _ H05)).
    rewrite (ltb_leb_trans 0.05 0.5 spread eq_refl (ltb_leb _ _ H05)).
    settle. }
  destruct (0.2 <? spread) eqn:H02.
  { pose proof (Hup 0.5 eq_refl H05 (Hnum _ H02)) as L05.
    rewrite (ltb_leb_trans 0.1 0.2 spread eq_refl (ltb_leb _ _ H02)).
    rewrite (ltb_leb_trans 0.05 0.2 spread eq_refl (ltb_leb _ _ H02)).
    settle. }
  destruct (0.1 <? spread) eqn:H01.
  { pose proof (Hup 0.2 eq_refl H02 (Hnum _ H01)) as L02.
    rewrite (ltb_leb_trans 0.05 0.1 spread eq_refl (ltb_leb _ _ H01)).
    settle. }
  destruct (0.05 <? spread) eqn:H005.
  { pose proof (Hup 0.1 eq_refl H01 (Hnum _ H005)) as L01.
    settle. }
  settle.
Qed.

End ZoomLadder.

(** ** More on the react-leaflet [calculateBounds] *)

Module LeafletMore.
Import Spec Shapes FloatOrderFacts ScanFacts.
Local Open Scope float_scope.

Lemma ToNumber_component S O n xs :
  forallb isNumber xs = true ->
  Leaflet.ToNumber S O (nth n xs VUndefined) = Normal (component n xs).
Proof.
  intros H. unfold component.
  destruct (nth_in_or_default n xs VUndefined) as [Hin | ->];
    [| reflexivity].
  rewrite forallb_forall in H. specialize (H _ Hin).
  destruct (nth n xs VUndefined); try discriminate H. reflexivity.
Qed.

Section Unfiltered.
Variable StringToNumber : string -> float.
Variable ObjectToNumber : value -> completion float.

Lemma visitCoord_numbers coord a :
  numbersOnly coord = true ->
  Leaflet.visitCoord StringToNumber ObjectToNumber coord a
  = Normal (accumulateLeaflet (readPair coord) a).
Proof.
  destruct coord as [| | b | z | s | xs | ps]; try discriminate.
  cbn [numbersOnly]. intros H. unfold Leaflet.visitCoord.
  cbn [destructure2 bind fst snd].
  rewrite !ToNumber_component by assumption. reflexivity.
Qed.

Lemma visitRing_numbers ring a :
  ringShape ring = true ->
  (forall c, In c (entriesOf ring) -> numbersOnly c = true) ->
  Leaflet.visitRing StringToNumber ObjectToNumber ring a
  = Normal (accumulateLeaflet (flat_map readPair (entriesOf ring)) a).
Proof.
  destruct ring; try discriminate. intros _ Hv.
  unfold Leaflet.visitRing, forEach. cbn [entriesOf] in *.
  apply VersionsClaims.leaflet_loop. intros c Hc a'.
  apply visitCoord_numbers, Hv, Hc.
Qed.

Lemma visitFeature_numbers feature a :
  featureShape feature = true ->
  (forall r c, In r (ringsOf feature) -> In c (entriesOf r) ->
     numbersOnly c = true) ->
  Leaflet.visitFeature StringToNumber ObjectToNumber feature a
  = Normal (accumulateLeaflet
              (flat_map readPair (flat_map entriesOf (ringsOf feature))) a).
Proof.
  unfold featureShape, Leaflet.visitFeature, ringsOf, coordinatesOf.
  destruct feature as [| | b | x | s | xs | props]; try discriminate;
    try reflexivity.
  cbn [get bind].
  destruct (lookup "geometry" props) as [| | b | x | s | xs | gprops];
    cbn [truthy get bind];
    try reflexivity;
    try match goal with
        | |- context [if ?c then _ else _] => destruct c; reflexivity
        end.
  destruct (truthy (lookup "coordinates" gprops)); [| reflexivity].
  destruct (lookup "coordinates" gprops)
    as [| | b | x | s | rings | cprops]; try discriminate.
  intros Hs Hv. unfold forEach. rewrite flat_map_nested.
  apply VersionsClaims.leaflet_loop. intros r Hr a'.
  apply visitRing_numbers.
  - rewrite forallb_forall in Hs. apply Hs. assumption.
  - intros c Hc. exact (Hv r c Hr Hc).
Qed.

Lemma scan_numbers features a :
  wellFormed features = true ->
  (forall c, In c (coordsOf features) -> numbersOnly c = true) ->
  forEachList (Leaflet.visitFeature StringToNumber ObjectToNumber)
    features a
  = Normal (accumulateLeaflet (readPairs features) a).
Proof.
  intros Hwf Hv. unfold readPairs, coordsOf. rewrite flat_map_nested.
  apply VersionsClaims.leaflet_loop. intros f Hf a'.
  apply visitFeature_numbers.
  - unfold wellFormed in Hwf. rewrite forallb_forall in Hwf.
    apply Hwf. assumption.
  - intros r c Hr Hc. apply Hv. unfold coordsOf.
    apply in_flat_map. exists f. split; [assumption |].
    apply in_flat_map. exists r. split; assumption.
Qed.

Lemma calculateBounds_numbers features :
  features <> [] ->
  wellFormed features = true ->
  (forall c, In c (coordsOf features) -> numbersOnly c = true) ->
  Leaflet.calculateBounds StringToNumber ObjectToNumber (VArr features)
  = Normal (Some (Leaflet.viewOf
                    (accumulateLeaflet (readPairs features)
                       Leaflet.initAcc))).
Proof.
  intros Hne Hwf Hv. destruct features as [| f fs]; [congruence |].
  unfold Leaflet.calculateBounds.
  cbn [truthy negb lengthIsZero orb forEach].
  rewrite scan_numbers by assumption. reflexivity.
Qed.
End Unfiltered.

(** X6: the react-leaflet version has no validity filter: on
    well-formed features whose coordinate entries are arrays of numbers
    it centers on the midpoints of the least and greatest of all the
    latitudes and longitudes read, in range or not, and zooms by their
    spread. *)
Theorem leaflet_reads_every_pair
  (StringToNumber : string -> float)
  (ObjectToNumber : value -> completion float)
  (features : list value) :
  features <> [] ->
  wellFormed features = true ->
  (forall c, In c (coordsOf features) -> numbersOnly c = true) ->
  let pairs := readPairs features in
  Leaflet.calculateBounds StringToNumber ObjectToNumber (VArr features)
  = Normal (Some (Leaflet.mkView
                    ((minOf (lats pairs) + maxOf (lats pairs)) / 2,
                     (minOf (lngs pairs) + maxOf (lngs pairs)) / 2)
                    (Leaflet.zoomFor (spreadOf pairs)))).
Proof.
  intros Hne Hwf Hv. cbv zeta.
  rewrite calculateBounds_numbers by assumption.
  unfold Leaflet.viewOf.
  rewrite VersionsClaims.accumulateLeaflet_fields. reflexivity.
Qed.

Lemma leaflet_reads_every_pair_witness :
  Leaflet.calculateBounds (fun _ => nan) (fun _ => Throw)
    (VArr [polygon [[point (-97) 33; point (-96) 95]]])
  = Normal (Some (Leaflet.mkView (64, -96.5) 7)).
Proof.
  refine (leaflet_reads_every_pair (fun _ => nan) (fun _ => Throw)
            [polygon [[point (-97) 33; point (-96) 95]]] _ eq_refl _).
  - discriminate.
  - intros c [<- | [<- | []]]; reflexivity.
Defined.

(** X7: on a non-empty well-formed sequence without any coordinate
    entry (features with no geometry, empty rings) the react-leaflet
    version returns a center that is not a number, at zoom 14. *)
Theorem leaflet_no_coordinates
  (StringToNumber : string -> float)
  (ObjectToNumber : value -> completion float)
  (features : list value) :
  features <> [] ->
  wellFormed features = true ->
  coordsOf features = [] ->
  Leaflet.calculateBounds StringToNumber ObjectToNumber (VArr features)
  = Normal (Some (Leaflet.mkView (nan, nan) 14)).
Proof.
  intros Hne Hwf Hnone.
  rewrite calculateBounds_numbers; try assumption.
  - unfold readPairs. rewrite Hnone. reflexivity.
  - rewrite Hnone. intros c [].
Qed.

Lemma leaflet_no_coordinates_witness :
  Leaflet.calculateBounds (fun _ => nan) (fun _ => Throw)
    (VArr [VObj [("type", VStr "Feature"); ("geometry", VNull)];
           polygon [[]]])
  = Normal (Some (Leaflet.mkView (nan, nan) 14)).
Proof.
  apply leaflet_no_coordinates; [discriminate | reflexivity | reflexivity].
Defined.

Lemma Math_min_keeps_nan x : Math_min x nan = nan.
Proof. unfold Math_min. rewrite orb_true_r. reflexivity. Qed.

Lemma Math_max_keeps_nan x : Math_max x nan = nan.
Proof. unfold Math_max. rewrite orb_true_r. reflexivity. Qed.

Lemma fold_min_nan l : fold_left Math_min l nan = nan.
Proof. induction l as [| y l IH]; [reflexivity | exact IH]. Qed.

Lemma fold_max_nan l : fold_left Math_max l nan = nan.
Proof. induction l as [| y l IH]; [reflexivity | exact IH]. Qed.

Lemma fold_min_poisoned l :
  In nan l -> forall a, fold_left Math_min l a = nan.
Proof.
  induction l as [| y l IH]; intros Hin a; [destruct Hin |].
  cbn [fold_left]. destruct Hin as [-> | Hin].
  - rewrite Math_min_keeps_nan. apply fold_min_nan.
  - apply IH. assumption.
Qed.

Lemma fold_max_poisoned l :
  In nan l -> forall a, fold_left Math_max l a = nan.
Proof.
  induction l as [| y l IH]; intros Hin a; [destruct Hin |].
  cbn [fold_left]. destruct Hin as [-> | Hin].
  - rewrite Math_max_keeps_nan. apply fold_max_nan.
  - apply IH. assumption.
Qed.

Lemma short_latitude coord :
  numbersOnly coord = true -> short coord = true ->
  exists x, readPair coord = [(x, nan)].
Proof.
  destruct coord as [| | b | z | s | xs | ps]; try discriminate.
  intros _ Hs. destruct xs as [| u [| v xs]]; try discriminate Hs;
    eexists; reflexivity.
Qed.

(** X8: in the react-leaflet version one coordinate entry with fewer
    than two numbers is enough to lose the view: its missing latitude
    reads as [NaN], which [Math.min] and [Math.max] never drop, so the
    center latitude is not a number and the zoom is 14. *)
Theorem leaflet_short_entry_poisons
  (StringToNumber : string -> float)
  (ObjectToNumber : value -> completion float)
  (features : list value) (coord : value) :
  wellFormed features = true ->
  (forall c, In c (coordsOf features) -> numbersOnly c = true) ->
  In coord (coordsOf features) ->
  short coord = true ->
  exists lng,
    Leaflet.calculateBounds StringToNumber ObjectToNumber (VArr features)
    = Normal (Some (Leaflet.mkView (nan, lng) 14)).
Proof.
  intros Hwf Hv Hin Hshort.
  assert (Hne : features <> []) by (intros ->; destruct Hin).
  rewrite calculateBounds_numbers by assumption.
  unfold Leaflet.viewOf.
  rewrite VersionsClaims.accumulateLeaflet_fields.
  cbn [Leaflet.minLat Leaflet.maxLat Leaflet.minLng Leaflet.maxLng].
  assert (Hnan : In nan (lats (readPairs features))).
  { destruct (short_latitude coord (Hv _ Hin) Hshort) as [x Hx].
    unfold lats. apply in_map_iff. exists (x, nan). split; [reflexivity |].
    unfold readPairs. apply in_flat_map. exists coord.
    split; [assumption |]. rewrite Hx. left. reflexivity. }
  rewrite (fold_min_poisoned _ Hnan), (fold_max_poisoned _ Hnan).
  eexists. reflexivity.
Qed.

Lemma leaflet_short_entry_poisons_witness :
  exists lng,
    Leaflet.calculateBounds (fun _ => nan) (fun _ => Throw)
      (VArr [polygon [[point (-97) 33; VArr [VNum (-96)]; point (-96) 34]]])
    = Normal (Some (Leaflet.mkView (nan, lng) 14)).
Proof.
  apply (leaflet_short_entry_poisons (fun _ => nan) (fun _ => Throw)
           [polygon [[point (-97) 33; VArr [VNum (-96)]; point (-96) 34]]]
           (VArr [VNum (-96)])).
  - reflexivity.
  - intros c [<- | [<- | [<- | []]]]; reflexivity.
  - right. left. reflexivity.
  - reflexivity.
Defined.

End LeafletMore.

(** ** More on the GeoJSON handler *)

Module DashboardMore.
Import Spec Dashboard ScanFacts.

Lemma present_dec feature : present feature \/ ~ present feature.
Proof.
  unfold present.
  destruct feature; try (left; split; discriminate);
    right; intros [Hu Hn]; congruence.
Qed.

Lemma hasLastEdited_absent feature :
  ~ present feature -> hasLastEdited feature = Throw.
Proof.
  unfold present. intros H.
  destruct feature; try reflexivity;
    exfalso; apply H; split; discriminate.
Qed.

Lemma filterList_absent features :
  (exists f, In f features /\ ~ present f) ->
  filterList hasLastEdited features = Throw.
Proof.
  induction features as [| f fs IH]; intros (g & Hg & Hn).
  - destruct Hg.
  - cbn [filterList]. destruct (present_dec f) as [Hp | Hp].
    + destruct (DashboardClaims.hasLastEdited_present f Hp) as (v & -> & _).
      cbn [bind]. rewrite IH; [reflexivity |].
      destruct Hg as [-> | Hg]; [contradiction |].
      exists g. split; assumption.
    + rewrite hasLastEdited_absent by assumption. reflexivity.
Qed.

Lemma all_present_or_not features :
  (forall f, In f features -> present f) \/
  (exists f, In f features /\ ~ present f).
Proof.
  induction features as [| f fs [IH | (g & Hg & Hn)]].
  - left. intros f [].
  - destruct (present_dec f) as [Hp | Hp].
    + left. intros g [<- | Hg]; [assumption | apply IH; assumption].
    + right. exists f. split; [left; reflexivity | assumption].
  - right. exists g. split; [right |]; assumption.
Qed.

Lemma filterList_idempotent keep xs kept :
  filterList keep xs = Normal kept ->
  filterList keep kept = Normal kept.
Proof.
  revert kept. induction xs as [| x xs IH]; intros kept.
  - cbn. intros H. injection H as <-. reflexivity.
  - cbn [filterList]. destruct (keep x) as [k |] eqn:Hk; [| discriminate].
    cbn [bind]. destruct (filterList keep xs) as [kept' |]; [| discriminate].
    cbn [bind]. intros H. injection H as <-.
    specialize (IH kept' eq_refl).
    destruct (truthy k) eqn:Ht; [| exact IH].
    cbn [filterList]. rewrite Hk. cbn [bind]. rewrite IH. cbn [bind].
    rewrite Ht. reflexivity.
Qed.

Lemma lookup_assign k v props : lookup k (assign k v props) = v.
Proof.
  induction props as [| [k' v'] props IH]; cbn [assign lookup].
  - rewrite String.eqb_refl. reflexivity.
  - destruct (String.eqb k k') eqn:E; cbn [lookup]; rewrite E;
      [reflexivity | exact IH].
Qed.

Lemma lookup_assign_other k k' v props :
  k' <> k -> lookup k' (assign k v props) = lookup k' props.
Proof.
  intros Hk. induction props as [| [k0 v0] props IH]; cbn [assign lookup].
  - apply String.eqb_neq in Hk. rewrite Hk. reflexivity.
  - destruct (String.eqb k k0) eqn:E; cbn [lookup].
    + apply String.eqb_eq in E. subst k0.
      apply String.eqb_neq in Hk. rewrite Hk. reflexivity.
    + rewrite IH. reflexivity.
Qed.

Lemma assign_assign k v v' props :
  assign k v (assign k v' props) = assign k v props.
Proof.
  induction props as [| [k0 v0] props IH]; cbn [assign].
  - rewrite String.eqb_refl. reflexivity.
  - destruct (String.eqb k k0) eqn:E; cbn [assign]; rewrite E;
      [reflexivity | rewrite IH; reflexivity].
Qed.

(** X9: the react-map-gl handler fails, and then leaves the view and
    the data as they were, exactly when the file has no [features]
    array, or the array has a [null] entry, or a feature that carries
    [last_edited] is malformed; malformed features without
    [last_edited] do no harm. *)
Theorem load_fails_iff (data : value) :
  let failing :=
    match get data "features" with
    | Normal (VArr features) =>
        (exists f, In f features /\ ~ present f) \/
        (List.filter timestamped features <> [] /\
         wellFormed (List.filter timestamped features) = false)
    | _ => True
    end in
  (loadGeoJson _ Mapbox.calculateBounds data = Throw <-> failing) /\
  (failing -> forall st, onGeoJson _ Mapbox.calculateBounds data st = st).
Proof.
  cbv zeta.
  assert (Hiff :
    loadGeoJson _ Mapbox.calculateBounds data = Throw <->
    match get data "features" with
    | Normal (VArr features) =>
        (exists f, In f features /\ ~ present f) \/
        (List.filter timestamped features <> [] /\
         wellFormed (List.filter timestamped features) = false)
    | _ => True
    end).
  { unfold loadGeoJson.
    destruct (get data "features") as [features |] eqn:Hf; cbn [bind];
      [| tauto].
    destruct features as [| | b | x | s | fs | ps]; cbn [filter bind];
      try tauto.
    destruct (all_present_or_not fs) as [Hp | Ha].
    - rewrite DashboardClaims.filterList_present by assumption. cbn [bind].
      set (kept := List.filter timestamped fs).
      split.
      + intros H. right.
        destruct kept as [| k ks] eqn:Hk; [discriminate H |].
        split; [discriminate |].
        destruct (wellFormed (k :: ks)) eqn:Hwf; [| reflexivity].
        rewrite calculateBounds_wellFormed in H
          by (discriminate || assumption).
        discriminate H.
      + intros [(f & Hin & Hn) | [Hne Hwf]].
        * destruct (Hn (Hp f Hin)).
        * rewrite calculateBounds_not_wellFormed by assumption.
          reflexivity.
    - rewrite filterList_absent by assumption. cbn [bind].
      split; [intros _; left; assumption | reflexivity]. }
  split; [exact Hiff |].
  intros Hfail st. unfold onGeoJson.
  apply Hiff in Hfail. rewrite Hfail. reflexivity.
Qed.

Section AnyVersion.
Variable View : Type.
Variable calculateBounds : value -> completion (option View).

(** X10: handing the stored data back to the handler changes nothing:
    the filter keeps every feature it kept before, and replacing the
    [features] property twice is replacing it once. *)
Theorem reload_is_idempotent (data filteredData : value)
  (view : option View) :
  loadGeoJson View calculateBounds data = Normal (filteredData, view) ->
  loadGeoJson View calculateBounds filteredData
  = Normal (filteredData, view) /\
  forall st,
    onGeoJson View calculateBounds filteredData
      (onGeoJson View calculateBounds data st)
    = onGeoJson View calculateBounds data st.
Proof.
  intros Hload.
  assert (Hagain :
    loadGeoJson View calculateBounds filteredData
    = Normal (filteredData, view)).
  { unfold loadGeoJson in *.
    destruct data as [| | b | x | s | xs | props]; try discriminate Hload.
    cbn [get bind] in Hload.
    destruct (lookup "features" props)
      as [| | b | x | s | fs | ps]; try discriminate Hload.
    cbn [filter bind] in Hload.
    destruct (filterList hasLastEdited fs) as [kept |] eqn:Hkept;
      [| discriminate Hload].
    cbn [bind] in Hload.
    destruct (calculateBounds (VArr kept)) as [v |] eqn:Hcb;
      [| discriminate Hload].
    cbn [bind withFeatures] in Hload. injection Hload as <- <-.
    cbn [get bind]. rewrite lookup_assign. cbn [filter bind].
    rewrite (filterList_idempotent _ _ _ Hkept). cbn [bind].
    rewrite Hcb. cbn [bind withFeatures].
    rewrite assign_assign. reflexivity. }
  split; [exact Hagain |].
  intros st. unfold onGeoJson. rewrite Hload, Hagain.
  destruct view; reflexivity.
Qed.
End AnyVersion.

Lemma reload_is_idempotent_witness :
  let filteredData :=
    collection
      [city "Plano" (VStr "2024-05-01")
         [[point (-97) 32.5; point (-96.5) 33.5]]] in
  loadGeoJson _ Mapbox.calculateBounds filteredData
  = Normal (filteredData, Some (Mapbox.mkView (-96.75) 33 10)).
Proof.
  cbv zeta.
  exact (proj1 (reload_is_idempotent _ Mapbox.calculateBounds
                  (collection
                     [city "Plano" (VStr "2024-05-01")
                        [[point (-97) 32.5; point (-96.5) 33.5]];
                      city "Allen" VNull [[point (-90) 40]]])
                  _ _ eq_refl)).
Defined.

(** X11: the stored data is the parsed file with its [features]
    replaced: reading [features] back gives the filtered array, and
    every other property of the file reads as before. *)
Theorem withFeatures_replaces_features (data features : value) :
  get (withFeatures data features) "features" = Normal features /\
  forall props k,
    data = VObj props -> k <> "features" ->
    get (withFeatures data features) k = get data k.
Proof.
  split.
  - destruct data; cbn [withFeatures get]; try reflexivity.
    rewrite lookup_assign. reflexivity.
  - intros props k -> Hk. cbn [withFeatures get].
    rewrite lookup_assign_other by assumption. reflexivity.
Qed.

(** X12: when the file has features but none of them carries
    [last_edited], either version keeps the view it had and stores the
    file with an empty [features] array. *)
Theorem nothing_timestamped_keeps_view
  (StringToNumber : string -> float)
  (ObjectToNumber : value -> completion float)
  (data : value) (features : list value) :
  get data "features" = Normal (VArr features) ->
  (forall f, In f features -> present f) ->
  (forall f, In f features -> timestamped f = false) ->
  (forall st,
     onGeoJson _ Mapbox.calculateBounds data st
     = mkState (mapView st) (Some (withFeatures data (VArr [])))) /\
  (forall st,
     onGeoJson _ (Leaflet.calculateBounds StringToNumber ObjectToNumber)
       data st
     = mkState (mapView st) (Some (withFeatures data (VArr [])))).
Proof.
  intros Hf Hp Hnone.
  assert (Hkept : List.filter timestamped features = []).
  { clear Hf Hp. induction features as [| f fs IH]; [reflexivity |].
    cbn [List.filter]. rewrite (Hnone f (or_introl eq_refl)).
    apply IH. intros g Hg. apply Hnone. right. assumption. }
  split; intros st; unfold onGeoJson;
    rewrite (DashboardClaims.loadGeoJson_present _ _ data features Hf Hp);
    rewrite Hkept; reflexivity.
Qed.

Lemma nothing_timestamped_keeps_view_witness :
  onGeoJson _ Mapbox.calculateBounds
    (collection [city "Allen" VNull [[point (-90) 40]];
                 polygon [[point (-80) 30]]])
    (mkState (Mapbox.mkView (-97) 33 12) None)
  = mkState (Mapbox.mkView (-97) 33 12) (Some (collection [])).
Proof.
  refine (proj1 (nothing_timestamped_keeps_view
                   (fun _ => nan) (fun _ => Throw)
                   (collection [city "Allen" VNull [[point (-90) 40]];
                                polygon [[point (-80) 30]]])
                   _ eq_refl _ _) _).
  - intros f [<- | [<- | []]]; split; discriminate.
  - intros f [<- | [<- | []]]; reflexivity.
Defined.

(** X20: from its initial state the react-map-gl dashboard stays on the
    default location whenever the kept features hold no valid pair,
    whether [calculateBounds] answers [null] (nothing kept) or the
    default view (something kept). *)
Theorem no_valid_pair_stays_on_default (data : value)
  (features : list value) :
  get data "features" = Normal (VArr features) ->
  (forall f, In f features -> present f) ->
  wellFormed (List.filter timestamped features) = true ->
  validPairs (List.filter timestamped features) = [] ->
  mapView (onGeoJson _ Mapbox.calculateBounds data
             (mkState Mapbox.initialMapView None))
  = Mapbox.defaultView.
Proof.
  intros Hf Hp Hwf Hnone.
  rewrite (DashboardClaims.mapView_present _ _ data features _ Hf Hp).
  destruct (List.filter timestamped features) as [| k ks] eqn:Hk;
    [reflexivity |].
  rewrite calculateBounds_wellFormed by (discriminate || assumption).
  rewrite Hnone. reflexivity.
Qed.

Lemma no_valid_pair_stays_on_default_witness :
  mapView (onGeoJson _ Mapbox.calculateBounds
             (collection [city "Plano" (VStr "2024-05-01") [[point 0 95]];
                          city "Allen" VNull [[point (-90) 40]]])
             (mkState Mapbox.initialMapView None))
  = Mapbox.defaultView.
Proof.
  refine (no_valid_pair_stays_on_default
            (collection [city "Plano" (VStr "2024-05-01") [[point 0 95]];
                         city "Allen" VNull [[point (-90) 40]]])
            _ eq_refl _ eq_refl eq_refl).
  intros f [<- | [<- | []]]; split; discriminate.
Defined.

End DashboardMore.

(** ** [Math.min] and [Math.max] as the minimum and maximum of a total
    order *)

Module TotalOrderFacts.
Import FloatOrder FloatTotal FloatOrderFacts.
Local Open Scope float_scope.

Lemma tkey_inj a b :
  a <> S754_nan -> b <> S754_nan -> tkey a = tkey b -> a = b.
Proof.
  intros Ha Hb.
  destruct a as [sa | sa | | sa ma ea], b as [sb | sb | | sb mb eb];
    try congruence;
    try destruct sa; try destruct sb; cbn;
    intros H; try discriminate H; try reflexivity;
    injection H as H1 H2; f_equal; lia.
Qed.

Lemma ftkey_inj x y :
  num x -> num y -> ftkey x = ftkey y -> x = y.
Proof.
  intros Hx Hy H. apply Prim2SF_inj. apply tkey_inj; assumption.
Qed.

Lemma is_zero_spec x :
  is_zero x = match Prim2SF x with S754_zero _ => true | _ => false end.
Proof.
  unfold is_zero. rewrite eqb_spec.
  change (Prim2SF zero) with (S754_zero false).
  destruct (Prim2SF x) as [s | [|] | | [|] m e]; reflexivity.
Qed.

Lemma get_sign_zero x s : Prim2SF x = S754_zero s -> get_sign x = s.
Proof.
  intros H. unfold get_sign. rewrite is_zero_spec, H.
  rewrite ltb_spec, div_spec, H.
  change (Prim2SF zero) with (S754_zero false).
  set (o := Prim2SF one). vm_compute in o. subst o.
  destruct s; reflexivity.
Qed.

Lemma is_neg_zero_spec x :
  is_neg_zero x
  = match Prim2SF x with S754_zero true => true | _ => false end.
Proof.
  unfold is_neg_zero. rewrite is_zero_spec.
  destruct (Prim2SF x) as [s | s | | s m e] eqn:H; try reflexivity.
  rewrite (get_sign_zero x s H). destruct s; reflexivity.
Qed.

Lemma is_pos_zero_spec x :
  is_pos_zero x
  = match Prim2SF x with S754_zero false => true | _ => false end.
Proof.
  unfold is_pos_zero. rewrite is_zero_spec.
  destruct (Prim2SF x) as [s | s | | s m e] eqn:H; try reflexivity.
  rewrite (get_sign_zero x s H). destruct s; reflexivity.
Qed.

Lemma SFltb_klt a b :
  a <> S754_nan -> b <> S754_nan ->
  (SFltb a b = true <-> klt (key a) (key b)).
Proof.
  intros Ha Hb. unfold SFltb. rewrite SFcompare_key by assumption.
  rewrite <- kcmp_Lt. destruct (kcmp (key a) (key b)); split;
    intros H; try discriminate H; reflexivity.
Qed.

Ltac by_keys :=
  match goal with
  | |- context [SFltb ?a ?b] =>
      let E := fresh "E" in
      destruct (SFltb a b) eqn:E;
      [ apply SFltb_klt in E; [| discriminate | discriminate]
      | apply not_true_iff_false in E;
        rewrite SFltb_klt in E by discriminate ];
      cbn [key tkey klt] in *;
      [ left | right ]; (split; [lia | reflexivity])
  end.

(** [Math.min] returns its second argument when that one is lower in
    the total order, and its first argument otherwise. *)
Lemma Math_min_select x y :
  num x -> num y ->
  (klt (ftkey y) (ftkey x) /\ Math_min x y = y) \/
  (~ klt (ftkey y) (ftkey x) /\ Math_min x y = x).
Proof.
  intros Hx Hy. unfold Math_min.
  rewrite (proj2 (is_nan_num x) Hx), (proj2 (is_nan_num y) Hy).
  cbn [orb]. rewrite is_neg_zero_spec, is_pos_zero_spec, ltb_spec.
  unfold ftkey, num in *.
  destruct (Prim2SF x) as [sx | sx | | sx mx ex],
           (Prim2SF y) as [sy | sy | | sy my ey];
    try congruence; try destruct sx; try destruct sy; cbn [andb];
    try by_keys;
    cbn [tkey klt]; first [ left; split; [lia | reflexivity]
                          | right; split; [lia | reflexivity] ].
Qed.

Lemma Math_max_select x y :
  num x -> num y ->
  (klt (ftkey x) (ftkey y) /\ Math_max x y = y) \/
  (~ klt (ftkey x) (ftkey y) /\ Math_max x y = x).
Proof.
  intros Hx Hy. unfold Math_max.
  rewrite (proj2 (is_nan_num x) Hx), (proj2 (is_nan_num y) Hy).
  cbn [orb]. rewrite is_neg_zero_spec, is_pos_zero_spec, ltb_spec.
  unfold ftkey, num in *.
  destruct (Prim2SF x) as [sx | sx | | sx mx ex],
           (Prim2SF y) as [sy | sy | | sy my ey];
    try congruence; try destruct sx; try destruct sy; cbn [andb];
    try by_keys;
    cbn [tkey klt]; first [ left; split; [lia | reflexivity]
                          | right; split; [lia | reflexivity] ].
Qed.

Lemma Math_min_num x y : num x -> num y -> num (Math_min x y).
Proof.
  intros Hx Hy.
  destruct (Math_min_select x y Hx Hy) as [[_ ->] | [_ ->]]; assumption.
Qed.

Lemma Math_max_num x y : num x -> num y -> num (Math_max x y).
Proof.
  intros Hx Hy.
  destruct (Math_max_select x y Hx Hy) as [[_ ->] | [_ ->]]; assumption.
Qed.

Lemma Math_min_nan_l x y : is_nan x = true -> Math_min x y = nan.
Proof. intros H. unfold Math_min. rewrite H. reflexivity. Qed.

Lemma Math_min_nan_r x y : is_nan y = true -> Math_min x y = nan.
Proof. intros H. unfold Math_min. rewrite H, orb_true_r. reflexivity. Qed.

Lemma Math_max_nan_l x y : is_nan x = true -> Math_max x y = nan.
Proof. intros H. unfold Math_max. rewrite H. reflexivity. Qed.

Lemma Math_max_nan_r x y : is_nan y = true -> Math_max x y = nan.
Proof. intros H. unfold Math_max. rewrite H, orb_true_r. reflexivity. Qed.

Lemma num_or_nan x : num x \/ is_nan x = true.
Proof.
  destruct (is_nan x) eqn:H; [right; reflexivity | left].
  apply is_nan_num. assumption.
Qed.

Ltac same_key :=
  match goal with
  | Hx : ftkey ?x = _, Hy : ftkey ?y = _ |- ?x = ?y =>
      apply ftkey_inj; [assumption | assumption |];
      rewrite Hx, Hy; repeat f_equal; lia
  end.

Ltac order_cases :=
  repeat match goal with
         | H : _ /\ _ |- _ => destruct H
         end;
  cbn [klt] in *;
  first [ reflexivity | exfalso; lia | same_key ].

(** The order of two arguments of a chain of [Math.min] is immaterial. *)
Lemma Math_min_swap a x y :
  Math_min (Math_min a x) y = Math_min (Math_min a y) x.
Proof.
  destruct (num_or_nan a) as [Ha | Ha].
  2: { rewrite !(Math_min_nan_l a) by assumption. reflexivity. }
  destruct (num_or_nan x) as [Hx | Hx].
  2: { rewrite (Math_min_nan_r a x), (Math_min_nan_r _ x) by assumption.
       reflexivity. }
  destruct (num_or_nan y) as [Hy | Hy].
  2: { rewrite (Math_min_nan_r a y), (Math_min_nan_r _ y) by assumption.
       reflexivity. }
  pose proof (Math_min_num a x Ha Hx) as Hax.
  pose proof (Math_min_num a y Ha Hy) as Hay.
  destruct (Math_min_select _ _ Hax Hy) as [[L1 ->] | [L1 ->]];
    destruct (Math_min_select _ _ Hay Hx) as [[R1 ->] | [R1 ->]];
    destruct (Math_min_select a x Ha Hx) as [[L2 E1] | [L2 E1]];
    destruct (Math_min_select a y Ha Hy) as [[R2 E2] | [R2 E2]];
    rewrite ?E1, ?E2 in *;
    destruct (ftkey a) as [[a1 a2] a3] eqn:Ka,
             (ftkey x) as [[x1 x2] x3] eqn:Kx,
             (ftkey y) as [[y1 y2] y3] eqn:Ky;
    order_cases.
Qed.

Lemma Math_max_swap a x y :
  Math_max (Math_max a x) y = Math_max (Math_max a y) x.
Proof.
  destruct (num_or_nan a) as [Ha | Ha].
  2: { rewrite !(Math_max_nan_l a) by assumption. reflexivity. }
  destruct (num_or_nan x) as [Hx | Hx].
  2: { rewrite (Math_max_nan_r a x), (Math_max_nan_r _ x) by assumption.
       reflexivity. }
  destruct (num_or_nan y) as [Hy | Hy].
  2: { rewrite (Math_max_nan_r a y), (Math_max_nan_r _ y) by assumption.
       reflexivity. }
  pose proof (Math_max_num a x Ha Hx) as Hax.
  pose proof (Math_max_num a y Ha Hy) as Hay.
  destruct (Math_max_select _ _ Hax Hy) as [[L1 ->] | [L1 ->]];
    destruct (Math_max_select _ _ Hay Hx) as [[R1 ->] | [R1 ->]];
    destruct (Math_max_select a x Ha Hx) as [[L2 E1] | [L2 E1]];
    destruct (Math_max_select a y Ha Hy) as [[R2 E2] | [R2 E2]];
    rewrite ?E1, ?E2 in *;
    destruct (ftkey a) as [[a1 a2] a3] eqn:Ka,
             (ftkey x) as [[x1 x2] x3] eqn:Kx,
             (ftkey y) as [[y1 y2] y3] eqn:Ky;
    order_cases.
Qed.

End TotalOrderFacts.

(** ** The order of the features *)

Module OrderIndependence.
Import Spec Mapbox ScanFacts BoundsFacts.
Import FloatOrder FloatTotal TotalOrderFacts.

Lemma fold_left_permutation {A B : Type} (f : A -> B -> A) :
  (forall a x y, f (f a x) y = f (f a y) x) ->
  forall l l', Permutation l l' ->
  forall a, fold_left f l a = fold_left f l' a.
Proof.
  intros Hf l l' Hp.
  induction Hp as [| x l l' _ IH | x y l | l l' l'' _ IH1 _ IH2];
    intros a; cbn [fold_left].
  - reflexivity.
  - apply IH.
  - rewrite Hf. reflexivity.
  - rewrite IH1. apply IH2.
Qed.

Lemma accumulate_permutation pairs pairs' :
  Permutation pairs pairs' ->
  accumulate pairs initAcc = accumulate pairs' initAcc.
Proof.
  intros Hp. rewrite !accumulate_init. unfold minOf, maxOf, lats, lngs.
  rewrite (fold_left_permutation Math_min Math_min_swap _ _
             (Permutation_map snd Hp)).
  rewrite (fold_left_permutation Math_max Math_max_swap _ _
             (Permutation_map snd Hp)).
  rewrite (fold_left_permutation Math_min Math_min_swap _ _
             (Permutation_map fst Hp)).
  rewrite (fold_left_permutation Math_max Math_max_swap _ _
             (Permutation_map fst Hp)).
  destruct pairs, pairs'; try reflexivity.
  - apply Permutation_nil in Hp. discriminate Hp.
  - apply Permutation_sym, Permutation_nil in Hp. discriminate Hp.
Qed.

Lemma wellFormed_permutation features features' :
  Permutation features features' ->
  wellFormed features = wellFormed features'.
Proof.
  intros Hp. unfold wellFormed.
  destruct (forallb featureShape features) eqn:H;
    destruct (forallb featureShape features') eqn:H';
    try reflexivity.
  - rewrite forallb_forall in H.
    destruct (forallb_false _ _ H') as (f & Hf & Hs).
    rewrite (H f (Permutation_in _ (Permutation_sym Hp) Hf)) in Hs.
    discriminate Hs.
  - rewrite forallb_forall in H'.
    destruct (forallb_false _ _ H) as (f & Hf & Hs).
    rewrite (H' f (Permutation_in _ Hp Hf)) in Hs.
    discriminate Hs.
Qed.

(** X13: the outcome of [calculateBounds] does not depend on the order
    of the features: the same features in another order give the same
    view, the same [null] or the same exception. *)
Theorem feature_order_is_immaterial (features features' : list value) :
  Permutation features features' ->
  calculateBounds (VArr features) = calculateBounds (VArr features').
Proof.
  intros Hp.
  destruct features as [| f fs].
  { apply Permutation_nil in Hp. subst. reflexivity. }
  destruct features' as [| f' fs'].
  { apply Permutation_sym, Permutation_nil in Hp. discriminate Hp. }
  pose proof (wellFormed_permutation _ _ Hp) as Hwf.
  destruct (wellFormed (f :: fs)) eqn:H1; symmetry in Hwf.
  - rewrite !calculateBounds_wellFormed by (discriminate || assumption).
    rewrite (accumulate_permutation (validPairs (f :: fs))
               (validPairs (f' :: fs'))); [reflexivity |].
    rewrite !validPairs_features. apply Permutation_flat_map. assumption.
  - rewrite !calculateBounds_not_wellFormed
      by (discriminate || assumption).
    reflexivity.
Qed.

Lemma feature_order_is_immaterial_witness :
  calculateBounds
    (VArr [polygon [[point (-97) 32.5]]; polygon [[point (-96.5) 33.5]]])
  = calculateBounds
      (VArr [polygon [[point (-96.5) 33.5]]; polygon [[point (-97) 32.5]]]).
Proof.
  apply feature_order_is_immaterial. apply perm_swap.
Defined.

Lemma fold_min_least l :
  forall a,
    num a -> (forall y, In y l -> num y) ->
    num (fold_left Math_min l a) /\
    ~ klt (ftkey a) (ftkey (fold_left Math_min l a)) /\
    forall y, In y l -> ~ klt (ftkey y) (ftkey (fold_left Math_min l a)).
Proof.
  induction l as [| x l IH]; intros a Ha Hl; cbn [fold_left].
  - repeat split; try assumption.
    + destruct (ftkey a) as [[a1 a2] a3]. cbn. lia.
    + intros y [].
  - assert (Hx : num x) by (apply Hl; left; reflexivity).
    destruct (IH (Math_min a x) (Math_min_num a x Ha Hx)
                (fun y Hy => Hl y (or_intror Hy))) as (Hn & Hm & Hrest).
    split; [assumption |].
    set (m := fold_left Math_min l (Math_min a x)) in *.
    destruct (Math_min_select a x Ha Hx) as [[L E] | [L E]];
      rewrite E in Hm;
      destruct (ftkey a) as [[a1 a2] a3],
               (ftkey x) as [[x1 x2] x3] eqn:Kx,
               (ftkey m) as [[m1 m2] m3]; cbn [klt] in *.
    + split; [lia |]. intros y [<- | Hy].
      * rewrite Kx. cbn [klt]. lia.
      * apply Hrest. assumption.
    + split; [lia |]. intros y [<- | Hy].
      * rewrite Kx. cbn [klt]. lia.
      * apply Hrest. assumption.
Qed.

Lemma fold_max_greatest l :
  forall a,
    num a -> (forall y, In y l -> num y) ->
    num (fold_left Math_max l a) /\
    ~ klt (ftkey (fold_left Math_max l a)) (ftkey a) /\
    forall y, In y l -> ~ klt (ftkey (fold_left Math_max l a)) (ftkey y).
Proof.
  induction l as [| x l IH]; intros a Ha Hl; cbn [fold_left].
  - repeat split; try assumption.
    + destruct (ftkey a) as [[a1 a2] a3]. cbn. lia.
    + intros y [].
  - assert (Hx : num x) by (apply Hl; left; reflexivity).
    destruct (IH (Math_max a x) (Math_max_num a x Ha Hx)
                (fun y Hy => Hl y (or_intror Hy))) as (Hn & Hm & Hrest).
    split; [assumption |].
    set (m := fold_left Math_max l (Math_max a x)) in *.
    destruct (Math_max_select a x Ha Hx) as [[L E] | [L E]];
      rewrite E in Hm;
      destruct (ftkey a) as [[a1 a2] a3],
               (ftkey x) as [[x1 x2] x3] eqn:Kx,
               (ftkey m) as [[m1 m2] m3]; cbn [klt] in *.
    + split; [lia |]. intros y [<- | Hy].
      * rewrite Kx. cbn [klt]. lia.
      * apply Hrest. assumption.
    + split; [lia |]. intros y [<- | Hy].
      * rewrite Kx. cbn [klt]. lia.
      * apply Hrest. assumption.
Qed.

Lemma below_infinity_num y : (y <? infinity)%float = true -> num y.
Proof. intros H. apply FloatOrderFacts.ltb_key in H. tauto. Qed.

Lemma above_neg_infinity_num y : (neg_infinity <? y)%float = true -> num y.
Proof. intros H. apply FloatOrderFacts.ltb_key in H. tauto. Qed.

(** The least of a list does not depend on how often or where its
    elements occur. *)
Lemma minOf_same_elements l l' :
  l <> [] ->
  (forall y, In y l -> (y <? infinity)%float = true) ->
  (forall y, In y l <-> In y l') ->
  minOf l = minOf l'.
Proof.
  intros Hne Hl Hsame.
  assert (Hne' : l' <> []).
  { destruct l as [| y l]; [congruence |]. intros ->.
    destruct (proj1 (Hsame y) (or_introl eq_refl)). }
  assert (Hl' : forall y, In y l' -> (y <? infinity)%float = true)
    by (intros y Hy; apply Hl, Hsame, Hy).
  destruct (ExtremaFacts.minOf_isMin l Hne Hl) as [Hin _].
  destruct (ExtremaFacts.minOf_isMin l' Hne' Hl') as [Hin' _].
  assert (Hinf : num infinity) by discriminate.
  destruct (fold_min_least l infinity Hinf
              (fun y Hy => below_infinity_num y (Hl y Hy)))
    as (Hn & _ & Hleast).
  destruct (fold_min_least l' infinity Hinf
              (fun y Hy => below_infinity_num y (Hl' y Hy)))
    as (Hn' & _ & Hleast').
  fold (minOf l) in *. fold (minOf l') in *.
  pose proof (Hleast _ (proj2 (Hsame _) Hin')) as H1.
  pose proof (Hleast' _ (proj1 (Hsame _) Hin)) as H2.
  apply ftkey_inj; try assumption.
  destruct (ftkey (minOf l)) as [[a1 a2] a3],
           (ftkey (minOf l')) as [[b1 b2] b3].
  cbn [klt] in *. repeat f_equal; lia.
Qed.

Lemma maxOf_same_elements l l' :
  l <> [] ->
  (forall y, In y l -> (neg_infinity <? y)%float = true) ->
  (forall y, In y l <-> In y l') ->
  maxOf l = maxOf l'.
Proof.
  intros Hne Hl Hsame.
  assert (Hne' : l' <> []).
  { destruct l as [| y l]; [congruence |]. intros ->.
    destruct (proj1 (Hsame y) (or_introl eq_refl)). }
  assert (Hl' : forall y, In y l' -> (neg_infinity <? y)%float = true)
    by (intros y Hy; apply Hl, Hsame, Hy).
  destruct (ExtremaFacts.maxOf_isMax l Hne Hl) as [Hin _].
  destruct (ExtremaFacts.maxOf_isMax l' Hne' Hl') as [Hin' _].
  assert (Hinf : num neg_infinity) by discriminate.
  destruct (fold_max_greatest l neg_infinity Hinf
              (fun y Hy => above_neg_infinity_num y (Hl y Hy)))
    as (Hn & _ & Hmost).
  destruct (fold_max_greatest l' neg_infinity Hinf
              (fun y Hy => above_neg_infinity_num y (Hl' y Hy)))
    as (Hn' & _ & Hmost').
  fold (maxOf l) in *. fold (maxOf l') in *.
  pose proof (Hmost _ (proj2 (Hsame _) Hin')) as H1.
  pose proof (Hmost' _ (proj1 (Hsame _) Hin)) as H2.
  apply ftkey_inj; try assumption.
  destruct (ftkey (maxOf l)) as [[a1 a2] a3],
           (ftkey (maxOf l')) as [[b1 b2] b3].
  cbn [klt] in *. repeat f_equal; lia.
Qed.

Lemma same_pairs_same_components
  (pairs pairs' : list (float * float)) :
  (forall p, In p pairs <-> In p pairs') ->
  (forall y, In y (lats pairs) <-> In y (lats pairs')) /\
  (forall x, In x (lngs pairs) <-> In x (lngs pairs')).
Proof.
  intros Hsame. unfold lats, lngs.
  split; intros z; rewrite !in_map_iff;
    split; intros (p & E & Hp); exists p; split;
    try assumption; apply Hsame; assumption.
Qed.

(** X14: more generally the view depends on the valid pairs only as a
    set: two non-empty well-formed sequences with the same valid pairs,
    however often, in whatever rings, features and order, give the same
    view. *)
Theorem same_pairs_same_view (features features' : list value) :
  features <> [] -> features' <> [] ->
  wellFormed features = true -> wellFormed features' = true ->
  (forall p, In p (validPairs features) <-> In p (validPairs features')) ->
  calculateBounds (VArr features) = calculateBounds (VArr features').
Proof.
  intros Hne Hne' Hwf Hwf' Hsame.
  rewrite !calculateBounds_wellFormed by assumption.
  destruct (validPairs features) as [| p ps] eqn:Hp.
  { destruct (validPairs features') as [| q qs]; [reflexivity |].
    destruct (proj2 (Hsame q) (or_introl eq_refl)). }
  assert (Hsome : validPairs features <> []) by (rewrite Hp; discriminate).
  assert (Hsome' : validPairs features' <> []).
  { intros E. rewrite E in Hsame.
    destruct (proj1 (Hsame p) (or_introl eq_refl)). }
  rewrite <- Hp in *.
  rewrite (viewOf_valid _ (validPairs_valid features) Hsome).
  rewrite (viewOf_valid _ (validPairs_valid features') Hsome').
  destruct (same_pairs_same_components _ _ Hsame) as [Hlat Hlng].
  pose proof (validPairs_valid features) as Hv.
  assert (Elo : minOf (lats (validPairs features))
                = minOf (lats (validPairs features'))).
  { apply minOf_same_elements;
      [apply lats_some; assumption | | assumption].
    intros y Hy. apply (range_below_infinity (-90) 90); [reflexivity |].
    apply (lats_range _ Hv). assumption. }
  assert (Ehi : maxOf (lats (validPairs features))
                = maxOf (lats (validPairs features'))).
  { apply maxOf_same_elements;
      [apply lats_some; assumption | | assumption].
    intros y Hy.
    apply (range_above_neg_infinity (-90) 90); [reflexivity |].
    apply (lats_range _ Hv). assumption. }
  assert (Flo : minOf (lngs (validPairs features))
                = minOf (lngs (validPairs features'))).
  { apply minOf_same_elements;
      [apply lngs_some; assumption | | assumption].
    intros y Hy. apply (range_below_infinity (-180) 180); [reflexivity |].
    apply (lngs_range _ Hv). assumption. }
  assert (Fhi : maxOf (lngs (validPairs features))
                = maxOf (lngs (validPairs features'))).
  { apply maxOf_same_elements;
      [apply lngs_some; assumption | | assumption].
    intros y Hy.
    apply (range_above_neg_infinity (-180) 180); [reflexivity |].
    apply (lngs_range _ Hv). assumption. }
  unfold spreadOf. rewrite Elo, Ehi, Flo, Fhi. reflexivity.
Qed.

Lemma same_pairs_same_view_witness :
  calculateBounds
    (VArr [polygon [[point (-97) 32.5; point (-96.5) 33.5; point (-97) 32.5];
                    [point 0 95]]])
  = calculateBounds
      (VArr [polygon [[point (-96.5) 33.5]]; VNum 0;
             polygon [[]; [point (-97) 32.5]]]).
Proof.
  apply same_pairs_same_view;
    try discriminate; try reflexivity.
  intros p. cbn. tauto.
Defined.

End OrderIndependence.

(** ** What [calculateBounds] reads of a feature *)

Module Readings.
Import Spec Mapbox ScanFacts.

Lemma featureShape_coordinates f f' :
  (present f <-> present f') ->
  coordinatesOf f = coordinatesOf f' ->
  featureShape f = featureShape f'.
Proof.
  unfold present, featureShape. intros Hp Hc. rewrite Hc.
  destruct f, f'; try reflexivity; exfalso;
    first [ assert (H : VUndefined <> VUndefined /\ VUndefined <> VNull)
              by (apply Hp; split; discriminate);
            destruct H as [H _]; apply H; reflexivity
          | assert (H : VNull <> VUndefined /\ VNull <> VNull)
              by (apply Hp; split; discriminate);
            destruct H as [_ H]; apply H; reflexivity ].
Qed.

Lemma pairsOfFeature_coordinates f f' :
  coordinatesOf f = coordinatesOf f' ->
  pairsOfFeature f = pairsOfFeature f'.
Proof. unfold pairsOfFeature, ringsOf. intros ->. reflexivity. Qed.

(** X15: [calculateBounds] reads nothing of a feature but its
    [geometry.coordinates]: features that differ in their other
    properties (names, population, timestamps, geometry type) give the
    same outcome. *)
Theorem only_coordinates_matter (features features' : list value) :
  Forall2 (fun f f' =>
             (present f <-> present f') /\
             coordinatesOf f = coordinatesOf f')
          features features' ->
  calculateBounds (VArr features) = calculateBounds (VArr features').
Proof.
  intros Hall.
  assert (Hwf : wellFormed features = wellFormed features').
  { unfold wellFormed.
    induction Hall as [| f f' fs fs' [Hp Hc] _ IH]; [reflexivity |].
    cbn [forallb].
    rewrite (featureShape_coordinates f f' Hp Hc), IH. reflexivity. }
  assert (Hpairs : validPairs features = validPairs features').
  { rewrite !validPairs_features. clear Hwf.
    induction Hall as [| f f' fs fs' [Hp Hc] _ IH]; [reflexivity |].
    cbn [flat_map].
    rewrite (pairsOfFeature_coordinates f f' Hc), IH. reflexivity. }
  destruct Hall as [| f f' fs fs' _ _]; [reflexivity |].
  destruct (wellFormed (f :: fs)) eqn:H; symmetry in Hwf.
  - rewrite !calculateBounds_wellFormed by (discriminate || assumption).
    rewrite Hpairs. reflexivity.
  - rewrite !calculateBounds_not_wellFormed
      by (discriminate || assumption).
    reflexivity.
Qed.

Lemma only_coordinates_matter_witness :
  calculateBounds
    (VArr [city "Plano" (VStr "2024-05-01")
             [[point (-97) 32.5; point (-96.5) 33.5]]])
  = calculateBounds
      (VArr [polygon [[point (-97) 32.5; point (-96.5) 33.5]]]).
Proof.
  apply only_coordinates_matter.
  constructor; [| constructor].
  split; [| reflexivity].
  split; intros _; split; discriminate.
Defined.

End Readings.

(** ** The attributes of the map *)

Module MapPropsFacts.
Import Spec Mapbox MapProps FloatOrderFacts ScanFacts BoundsFacts.
Local Open Scope float_scope.

(** X16: the fallback [mapView.zoom || 9] never replaces a zoom that
    [calculateBounds] computed: every level of the ladder is truthy. *)
Theorem computed_zoom_is_shown (features : value) (view : ViewBounds) :
  calculateBounds features = Normal (Some view) ->
  propZoom (mapProps view) = zoom view.
Proof.
  unfold calculateBounds.
  destruct (negb (truthy features) || lengthIsZero features);
    [discriminate |].
  destruct (forEach visitFeature features initAcc) as [a |];
    [| discriminate].
  cbn [bind]. intros H. injection H as <-.
  unfold mapProps. cbn [propZoom].
  assert (Hz : In (zoom (viewOf a)) [7; 8; 9; 10; 11; 12; 13; 14]%Z).
  { unfold viewOf. destruct (noBounds a).
    - cbn. tauto.
    - apply zoomFor_levels. }
  cbn [In] in Hz.
  destruct (Z.eqb_spec (zoom (viewOf a)) 0) as [E | _]; [| reflexivity].
  rewrite E in Hz. lia.
Qed.

Lemma computed_zoom_is_shown_witness :
  propZoom (mapProps (mkView (-96.75) 33 10)) = 10%Z.
Proof.
  exact (computed_zoom_is_shown
           (VArr [polygon [[point (-97) 32.5; point (-96.5) 33.5]]])
           (mkView (-96.75) 33 10) eq_refl).
Defined.

Lemma finite_cases x :
  is_finite x = true ->
  (exists s, Prim2SF x = S754_zero s) \/
  (exists s m e, Prim2SF x = S754_finite s m e).
Proof.
  unfold is_finite, is_nan, is_infinity.
  rewrite !eqb_spec, abs_spec.
  change (Prim2SF infinity) with (S754_infinity false).
  destruct (Prim2SF x) as [s | [|] | | s m e]; cbn;
    try discriminate; intros _; [left | right]; eauto.
Qed.

(** A finite number and its opposite add up to [+0]. *)
Lemma add_opp_finite x : is_finite x = true -> - x + x = 0.
Proof.
  intros Hx. apply Prim2SF_inj. rewrite add_spec, opp_spec.
  change (Prim2SF 0) with (S754_zero false).
  destruct (finite_cases x Hx) as [[s ->] | (s & m & e & ->)].
  - destruct s; reflexivity.
  - unfold SF64add. cbn [SFopp SFadd].
    rewrite Z.min_id. unfold shl_align. rewrite Z.sub_diag. cbn [fst].
    destruct s; cbn [negb cond_Zopp Z.opp Z.add];
      rewrite Z.pos_sub_diag; reflexivity.
Qed.

Lemma add_opp_center x : is_finite x = true -> (- x + x) / 2 = 0.
Proof. intros Hx. rewrite add_opp_finite by assumption. reflexivity. Qed.

(** X17: when the valid longitudes are symmetric about the prime
    meridian, the computed center longitude is 0, which is falsy, so
    the map is given the default longitude -96.7970 instead; likewise
    latitudes symmetric about the equator get the default latitude
    32.9750. *)
Theorem center_zero_shows_default (features : list value) :
  wellFormed features = true ->
  validPairs features <> [] ->
  exists view,
    calculateBounds (VArr features) = Normal (Some view) /\
    (minOf (lngs (validPairs features))
     = - maxOf (lngs (validPairs features)) ->
     longitude view = 0 /\
     propLongitude (mapProps view) = -96.7970) /\
    (minOf (lats (validPairs features))
     = - maxOf (lats (validPairs features)) ->
     latitude view = 0 /\
     propLatitude (mapProps view) = 32.9750).
Proof.
  intros Hwf Hsome.
  pose proof (validPairs_valid features) as Hv.
  eexists. split; [apply calculateBounds_valid; assumption |].
  unfold mapProps. cbn [longitude latitude propLongitude propLatitude].
  split; intros ->.
  - destruct (maxLng_isMax _ Hv Hsome) as [Hin _].
    apply (lngs_range _ Hv) in Hin.
    rewrite add_opp_center; [split; reflexivity |].
    apply between_infinities_finite.
    + apply (range_above_neg_infinity (-180) 180); [reflexivity | exact Hin].
    + apply (range_below_infinity (-180) 180); [reflexivity | exact Hin].
  - destruct (maxLat_isMax _ Hv Hsome) as [Hin _].
    apply (lats_range _ Hv) in Hin.
    rewrite add_opp_center; [split; reflexivity |].
    apply between_infinities_finite.
    + apply (range_above_neg_infinity (-90) 90); [reflexivity | exact Hin].
    + apply (range_below_infinity (-90) 90); [reflexivity | exact Hin].
Qed.

Lemma center_zero_shows_default_witness :
  exists view,
    calculateBounds (VArr [polygon [[point (-1.5) 51; point 1.5 52]]])
    = Normal (Some view) /\
    longitude view = 0 /\
    propLongitude (mapProps view) = -96.7970.
Proof.
  destruct (center_zero_shows_default
              [polygon [[point (-1.5) 51; point 1.5 52]]] eq_refl)
    as (view & Hview & Hlng & _); [discriminate |].
  exists view. split; [exact Hview |]. apply Hlng. reflexivity.
Defined.

End MapPropsFacts.

(** ** The charts of the summary file *)

Module ChartsFacts.
Import Charts.
Local Open Scope float_scope.

Section Handler.
Variable StringToNumber : string -> float.
Variable ObjectToNumber : JS.value -> completion float.

Lemma filterPositive_kept items :
  forall kept,
    filterPositive StringToNumber ObjectToNumber items = Normal kept ->
    Sublist kept items /\
    (forall item, In item kept ->
       positive StringToNumber ObjectToNumber (value item) = Normal true) /\
    (forall item, In item items ->
       positive StringToNumber ObjectToNumber (value item) = Normal true ->
       In item kept).
Proof.
  induction items as [| item items IH]; intros kept; cbn [filterPositive].
  - intros H. injection H as <-. repeat split.
    + constructor.
    + intros item [].
    + intros item [].
  - destruct (positive StringToNumber ObjectToNumber (value item))
      as [keep |] eqn:Hk; [| discriminate].
    cbn [bind].
    destruct (filterPositive StringToNumber ObjectToNumber items)
      as [kept' |]; [| discriminate].
    cbn [bind]. intros H. injection H as <-.
    destruct (IH kept' eq_refl) as (Hsub & Hpos & Hall).
    destruct keep; repeat split.
    + constructor. assumption.
    + intros i [<- | Hi]; [assumption | apply Hpos; assumption].
    + intros i [<- | Hi] Hp; [left; reflexivity | right; apply Hall; assumption].
    + constructor. assumption.
    + assumption.
    + intros i [<- | Hi] Hp; [congruence | apply Hall; assumption].
Qed.

Lemma Sublist_map {A B : Type} (f : A -> B) l l' :
  Sublist l l' -> Sublist (map f l) (map f l').
Proof. induction 1; cbn [map]; constructor; assumption. Qed.

(** X18: the quality chart gets the slices of the columns Very Good,
    Good, Normal and Poor, in this order, whose cell is greater than 0,
    each with the cell of its own column, and no other: a count that is
    0, negative, empty or missing gives no slice. *)
Theorem quality_slices (summaryData : JS.value) (slices : list Item) :
  qualityData StringToNumber ObjectToNumber summaryData = Normal slices ->
  Sublist (map name slices) ["Very Good"; "Good"; "Normal"; "Poor"]%string /\
  (forall item, In item slices ->
     get summaryData (name item) = Normal (value item) /\
     positive StringToNumber ObjectToNumber (value item) = Normal true) /\
  (forall column cell,
     In column ["Very Good"; "Good"; "Normal"; "Poor"]%string ->
     get summaryData column = Normal cell ->
     positive StringToNumber ObjectToNumber cell = Normal true ->
     In (mkItem column cell) slices).
Proof.
  unfold qualityData. intros H.
  destruct (get summaryData "Very Good") as [c1 |] eqn:G1; [| discriminate].
  destruct (get summaryData "Good") as [c2 |] eqn:G2; [| discriminate].
  destruct (get summaryData "Normal") as [c3 |] eqn:G3; [| discriminate].
  destruct (get summaryData "Poor") as [c4 |] eqn:G4; [| discriminate].
  cbn [bind] in H.
  destruct (filterPositive_kept _ _ H) as (Hsub & Hpos & Hall).
  split; [exact (Sublist_map name _ _ Hsub) |].
  assert (Hin : forall item, In item slices ->
                  In item [mkItem "Very Good" c1; mkItem "Good" c2;
                           mkItem "Normal" c3; mkItem "Poor" c4]).
  { clear Hpos Hall H. intros item.
    induction Hsub as [| x l l' _ IH | x l l' _ IH]; cbn [In].
    - tauto.
    - intros [-> | Hi]; [left; reflexivity | right; apply IH; assumption].
    - intros Hi. right. apply IH. assumption. }
  split.
  - intros item Hi. split; [| apply Hpos; assumption].
    destruct (Hin item Hi) as [<- | [<- | [<- | [<- | []]]]];
      cbn [name value]; assumption.
  - intros column cell Hcol Hget Hp. apply Hall; [| exact Hp].
    cbn [In] in *.
    destruct Hcol as [<- | [<- | [<- | [<- | []]]]];
      [ rewrite G1 in Hget | rewrite G2 in Hget
      | rewrite G3 in Hget | rewrite G4 in Hget ];
      injection Hget as <-; tauto.
Qed.

Variable parseFloat : JS.value -> completion float.

Lemma chartFor_some summaryData metric chart :
  chartFor parseFloat summaryData metric = Normal (Some chart) ->
  exists cell yes,
    get summaryData metric = Normal cell /\
    parseFloat cell = Normal yes /\
    is_nan yes = false /\
    chart = mkChart metric [mkSlice "Yes" (yes * 100);
                            mkSlice "No" ((1 - yes) * 100)].
Proof.
  unfold chartFor.
  destruct (get summaryData metric) as [cell |]; [| discriminate].
  cbn [bind]. destruct (parseFloat cell) as [yes |] eqn:Hp; [| discriminate].
  cbn [bind]. destruct (is_nan yes) eqn:Hn; [discriminate |].
  intros H. injection H as <-. exists cell, yes. auto.
Qed.

(** X19: every completeness chart is the donut of one metric, in the
    order of the metrics: its two slices are Yes, at 100 times the
    parsed cell, and No, at 100 times its complement; the parsed cell
    is a number; the label in the middle shows the Yes value, and the
    test [chart.data[0]?.name === 'Yes'] holds. *)
Theorem completeness_charts (metrics : list string)
  (summaryData : JS.value) (charts : list Chart) :
  completenessChartsOf parseFloat metrics summaryData = Normal charts ->
  Sublist (map title charts) metrics /\
  forall chart, In chart charts ->
    exists cell yes,
      get summaryData (title chart) = Normal cell /\
      parseFloat cell = Normal yes /\
      is_nan yes = false /\
      data chart = [mkSlice "Yes" (yes * 100);
                    mkSlice "No" ((1 - yes) * 100)] /\
      yesPercentage (data chart) = yes * 100 /\
      firstIsYes (data chart) = true.
Proof.
  unfold completenessChartsOf. revert charts.
  induction metrics as [| metric metrics IH]; intros charts;
    cbn [mapCharts bind].
  - intros H. injection H as <-. split; [constructor | intros c []].
  - destruct (chartFor parseFloat summaryData metric) as [chart |] eqn:Hc;
      [| discriminate].
    cbn [bind].
    destruct (mapCharts parseFloat summaryData metrics) as [rest |];
      [| discriminate].
    cbn [bind] in *. intros H. injection H as <-.
    destruct (IH (dropNulls rest) eq_refl) as [Hsub Hall].
    destruct chart as [chart |]; cbn [dropNulls map].
    + destruct (chartFor_some _ _ _ Hc) as (cell & yes & Hg & Hp & Hn & ->).
      split; [constructor; assumption |].
      intros c [<- | Hi]; [| apply Hall; assumption].
      exists cell, yes. cbn [title data]. repeat split; assumption.
    + split; [constructor; assumption | assumption].
Qed.
End Handler.

Lemma quality_slices_witness :
  qualityData (fun _ => nan) (fun _ => Throw)
    (VObj [("Very Good", VNum 12); ("Good", VNum 0);
           ("Normal", VNull); ("Poor", VNum 3)])
  = Normal [mkItem "Very Good" (VNum 12); mkItem "Poor" (VNum 3)] /\
  Sublist ["Very Good"; "Poor"]%string
          ["Very Good"; "Good"; "Normal"; "Poor"]%string.
Proof.
  split; [reflexivity |].
  exact (proj1
    (quality_slices (fun _ => nan) (fun _ => Throw)
       (VObj [("Very Good", VNum 12); ("Good", VNum 0);
              ("Normal", VNull); ("Poor", VNum 3)])
       [mkItem "Very Good" (VNum 12); mkItem "Poor" (VNum 3)]
       eq_refl)).
Defined.

Lemma completeness_charts_witness :
  completenessChartsOf
    (fun v => match v with VNum x => Normal x | _ => Normal nan end)
    completenessMetrics
    (VObj [("Descriptions", VNum 0.5); ("Locations", VNull);
           ("Contacts", VNum 0.25)])
  = Normal [mkChart "Descriptions" [mkSlice "Yes" 50; mkSlice "No" 50];
            mkChart "Contacts" [mkSlice "Yes" 25; mkSlice "No" 75]] /\
  Sublist ["Descriptions"; "Contacts"]%string completenessMetrics.
Proof.
  split; [reflexivity |].
  exact (proj1
    (completeness_charts
       (fun v => match v with VNum x => Normal x | _ => Normal nan end)
       completenessMetrics
       (VObj [("Descriptions", VNum 0.5); ("Locations", VNull);
              ("Contacts", VNum 0.25)])
       [mkChart "Descriptions" [mkSlice "Yes" 50; mkSlice "No" 50];
        mkChart "Contacts" [mkSlice "Yes" 25; mkSlice "No" 75]]
       eq_refl)).
Defined.

End ChartsFacts.
